(** * Inner-product argument engine and naive sequence commitments

    A shallow embedding of the device driver of the inner-product proof
    ([sxt/proof/inner_product/gpu_driver.cc]), of its scalar fold kernel
    ([sxt/proof/inner_product/scalar_fold_kernel.cc]) and of the naive
    Pedersen commitment loop
    ([sxt/seqcommit/naive/commitment_computation_cpu.cc]), followed by the
    properties of these functions.

    Conventions of the embedding.
    - [unsigned] is a 32-bit and [size_t] a 64-bit integer; values are kept
      in [Z] and every operation that can wrap is written with [u32] or
      [u64].
    - A scalar ([s25t::element]) is kept as an integer; the scalar
      operations reduce modulo the group order [ell].
    - Device memory is a list of cells; a kernel is a function on the
      memory that also records which cells it reads and writes.
    - A call either returns, stops on a failed assertion, or leaves defined
      behaviour (an access outside a buffer): type [outcome]. *)

From Stdlib Require Import ZArith Lia.
From Stdlib.Strings Require Import Byte.
From coqutil Require Import Z.PushPullMod.
From stdpp Require Import base list.

Local Open Scope Z_scope.

(** ** Machine integers *)

Definition u32 (x : Z) : Z := x mod 2 ^ 32.
Definition u64 (x : Z) : Z := x mod 2 ^ 64.

(** ** Outcomes of a call *)

Inductive outcome (A : Type) : Type :=
| Done (a : A)
| AssertionFailed
| Undefined.

Arguments Done {A} a.
Arguments AssertionFailed {A}.
Arguments Undefined {A}.

Definition obind {A B : Type} (o : outcome A) (k : A -> outcome B) : outcome B :=
  match o with
  | Done a => k a
  | AssertionFailed => AssertionFailed
  | Undefined => Undefined
  end.

Notation "'let!' x ':=' c 'in' k" := (obind c (fun x => k))
  (at level 10, x name, c at level 100, k at level 200).

(** [SXT_DEBUG_ASSERT] is declared in [sxt/base/error/assert.h], which is
    outside the files modelled here. Whether debug assertions are compiled
    in is therefore a parameter of every function that uses the macro: with
    [Debug] a false condition stops the program, with [Release] the
    condition is not evaluated. *)
Inductive build : Type := Debug | Release.

Definition SXT_DEBUG_ASSERT (cfg : build) (condition : bool) : outcome unit :=
  match cfg with
  | Debug => if condition then Done tt else AssertionFailed
  | Release => Done tt
  end.

(** [assert] of <cassert> follows the same rule through NDEBUG. *)
Definition cassert (cfg : build) (condition : bool) : outcome unit :=
  SXT_DEBUG_ASSERT cfg condition.

(** ** Scalars of Curve25519 *)

Module s25.

(** The order of the prime-order subgroup, 2^252 + 27742317777372353535851937790883648493. *)
Definition ell : Z := 2 ^ 252 + 27742317777372353535851937790883648493.

(** Modelled from the spec: [s25o::mul] of [sxt/scalar25/operation/mul.h],
    the product of two scalars in the scalar field. *)
Definition mul (a b : Z) : Z := (a * b) mod ell.

(** Modelled from the spec: [s25o::muladd] of
    [sxt/scalar25/operation/muladd.h], [muladd(r,a,b,c) => r = a*b + c]. *)
Definition muladd (a b c : Z) : Z := (a * b + c) mod ell.

Fixpoint pow (b : Z) (e : positive) : Z :=
  match e with
  | xH => b mod ell
  | xO e' => let t := pow b e' in (t * t) mod ell
  | xI e' => let t := pow b e' in ((t * t) mod ell * b) mod ell
  end.

(** Modelled from the spec: [s25o::inv] of [sxt/scalar25/operation/inv.h],
    the inverse in the scalar field, computed as the power [ell - 2]. *)
Definition inv (a : Z) : Z := pow a (Z.to_pos (ell - 2)).

(** Modelled from the spec: [s25o::async_inner_product] of
    [sxt/scalar25/operation/inner_product.h], the sum of the products of
    the paired entries. *)
Fixpoint inner_product (u v : list Z) : Z :=
  match u, v with
  | a :: u', b :: v' => muladd a b (inner_product u' v')
  | _, _ => 0
  end.

End s25.

(** ** Device memory and kernels *)

Inductive access : Type :=
| Read (i : Z)
| Write (i : Z).

(** [cells] holds the elements a span points to, [trace] the accesses made
    so far, newest first. *)
Record dmem : Type := mk_dmem { cells : list Z; trace : list access }.

Definition kernel (A : Type) : Type := dmem -> option (A * dmem).

Definition kret {A : Type} (a : A) : kernel A := fun d => Some (a, d).

Definition kbind {A B : Type} (c : kernel A) (k : A -> kernel B) : kernel B :=
  fun d => match c d with
           | Some (a, d') => k a d'
           | None => None
           end.

Notation "'run!' x '<-' c ';' k" := (kbind c (fun x => k))
  (at level 10, x name, c at level 100, k at level 200).

(** [data[i]] read: outside the buffer the behaviour is undefined ([None]). *)
Definition load (i : Z) : kernel Z := fun d =>
  if 0 <=? i then
    match cells d !! Z.to_nat i with
    | Some v => Some (v, mk_dmem (cells d) (Read i :: trace d))
    | None => None
    end
  else None.

(** [data[i] = v]: outside the buffer the behaviour is undefined ([None]). *)
Definition store (i : Z) (v : Z) : kernel unit := fun d =>
  if (0 <=? i) && (i <? Z.of_nat (length (cells d))) then
    Some (tt, mk_dmem (<[Z.to_nat i := v]> (cells d)) (Write i :: trace d))
  else None.

Fixpoint for_each_from (f : Z -> Z -> kernel unit) (n : Z) (count : nat) (i : Z)
  : kernel unit :=
  match count with
  | O => kret tt
  | S count' => run! _ <- f n i; for_each_from f n count' (i + 1)
  end.

(** Modelled from the spec: [algi::for_each(f, n)] of
    [sxt/algorithm/iteration/for_each.h] launches the work items [f(n, i)],
    [i] in [0, n) (section 4.1, Execution). The work items are run here one
    after the other in increasing order; for the two kernels below any
    other order gives the same memory ([fold_scalars_any_schedule]). *)
Definition for_each (f : Z -> Z -> kernel unit) (n : Z) : kernel unit :=
  for_each_from f n (Z.to_nat n) 0.

(** A span of scalars: where it lives ([basdv::is_device_pointer] of its
    data pointer) and its elements. *)
Record span : Type := mk_span { is_device_pointer : bool; elements : list Z }.

(** The lambda of [fold_scalars_case1]; [data] is [scalars.data()], the
    sum [mid + i] is a sum of two [unsigned]. *)
Definition fold_scalars_case1_f (m_low m_high mid : Z) (_m i : Z) : kernel unit :=
  run! x <- load i;
  run! _ <- store i (s25.mul m_low x);
  run! y <- load (u32 (mid + i));
  run! x' <- load i;
  store i (s25.muladd m_high y x').

Definition fold_scalars_case1 (m_low m_high mid m : Z) : kernel unit :=
  for_each (fold_scalars_case1_f m_low m_high mid) m.

(** The lambda of [fold_scalars_case2]; [data] is [scalars.data() + m]. *)
Definition fold_scalars_case2_f (m_low m : Z) (_m i : Z) : kernel unit :=
  run! x <- load (m + i);
  store (m + i) (s25.mul m_low x).

Definition fold_scalars_case2 (m_low mid m : Z) : kernel unit :=
  for_each (fold_scalars_case2_f m_low m) (u32 (mid - m)).

Definition launch (k : kernel unit) (d : dmem) : outcome dmem :=
  match k d with
  | Some (_, d') => Done d'
  | None => Undefined
  end.

(** [fold_scalars]: [mid] is an [unsigned], [n] and [m] are [size_t]; [m]
    is narrowed to [unsigned] when it is passed to the two cases, and
    [2u * mid] is a product of two [unsigned]. The result is the memory once
    the returned future is ready, that is, once both cases are done. *)
Definition fold_scalars (cfg : build) (scalars : span) (m_low m_high mid : Z)
  : outcome dmem :=
  let n := Z.of_nat (length (elements scalars)) in
  let! _ := SXT_DEBUG_ASSERT cfg
              (is_device_pointer scalars
               && (0 <? mid) && (mid <? n) && (n <=? u32 (2 * mid))) in
  let m := u64 (n - mid) in
  let! d1 := launch (fold_scalars_case1 m_low m_high mid (u32 m))
                    (mk_dmem (elements scalars) []) in
  if m =? mid then Done d1
  else launch (fold_scalars_case2 m_low mid (u32 m)) d1.

(** ** Group elements

    The arithmetic of the curve ([sxt/curve21], [sxt/ristretto]) and the
    base elements of [sxt/seqcommit/base] are used through their headers
    only. They are the operations of a class, and every property below
    holds for all of its instances. *)
Class Curve21 : Type := {
  (** [c21t::element_p3] *)
  element_p3 : Type;
  (** [rstt::compressed_element] *)
  compressed_element : Type;
  (** [sqcb::commitment] *)
  commitment : Type;
  (** the neutral element, the value of an empty multiexponentiation *)
  c21_identity : element_p3;
  (** [c21o::add(res, p, q)] *)
  c21o_add : element_p3 -> element_p3 -> element_p3;
  (** [c21o::scalar_multiply(res, a, p)], [a] read as a little-endian integer *)
  c21o_scalar_multiply : Z -> element_p3 -> element_p3;
  (** [rsto::compress(res, p)] *)
  rsto_compress : element_p3 -> compressed_element;
  (** [c21rs::to_bytes(bytes, p)] *)
  c21rs_to_bytes : element_p3 -> commitment;
  (** [sqcb::compute_base_element(g, index)] *)
  sqcb_compute_base_element : Z -> element_p3;
}.

(** The additive group of integers modulo [ell], an instance on which the
    definitions can be run. *)
Definition Zl_curve : Curve21 := {|
  element_p3 := Z;
  compressed_element := Z;
  commitment := Z;
  c21_identity := 0;
  c21o_add := fun p q => (p + q) mod s25.ell;
  c21o_scalar_multiply := fun a p => (a * p) mod s25.ell;
  rsto_compress := fun p => p mod s25.ell;
  c21rs_to_bytes := fun p => p mod s25.ell;
  sqcb_compute_base_element := fun i => (i + 1) mod s25.ell;
|}.

(** Modelled from the spec: [mtxc21::async_compute_multiexponentiation] of
    [sxt/multiexp/curve21/multiexponentiation.h], the sum of
    [exponents_i * generators_i] (section 4.3). *)
Fixpoint multiexponentiation `{Curve21} (generators : list element_p3)
    (exponents : list Z) : element_p3 :=
  match generators, exponents with
  | p :: generators', a :: exponents' =>
      c21o_add (c21o_scalar_multiply a p) (multiexponentiation generators' exponents')
  | _, _ => c21_identity
  end.

(** Modelled from the spec: [basct::subspan(s, offset, count)] and
    [basct::subspan(s, offset)] of [sxt/base/container/span_utility.h], the
    views [[offset, offset + count)] and [[offset, |s|)] of [s] (section
    4.4.2, low and high halves); a view that does not lie inside [s] is
    outside defined behaviour. *)
Definition subspan {A : Type} (s : list A) (offset count : Z) : outcome (list A) :=
  if (0 <=? offset) && (0 <=? count) && (offset + count <=? Z.of_nat (length s))
  then Done (take (Z.to_nat count) (drop (Z.to_nat offset) s))
  else Undefined.

Definition subspan_from {A : Type} (s : list A) (offset : Z) : outcome (list A) :=
  if (0 <=? offset) && (offset <=? Z.of_nat (length s))
  then Done (drop (Z.to_nat offset) s)
  else Undefined.

(** Modelled from the spec: [memmg::managed_array::shrink(size)], a
    logical shrink to [size] elements (section 4.4.3); [size] may not exceed
    the current size. *)
Definition shrink {A : Type} (s : list A) (size : Z) : outcome (list A) :=
  if (0 <=? size) && (size <=? Z.of_nat (length s))
  then Done (take (Z.to_nat size) s)
  else Undefined.

(** [proof_descriptor] of [sxt/proof/inner_product/proof_descriptor.h]. *)
Module proof_descriptor.
Record t `{Curve21} : Type := mk {
  b_vector : list Z;
  g_vector : list element_p3;
  q_value : element_p3;
}.
End proof_descriptor.

(** Modelled from the spec: [gpu_workspace] of
    [sxt/proof/inner_product/gpu_workspace.h] (section 3, Workspace): the
    descriptor, a round counter that starts at 0, and the three current
    vectors, all of them in device memory. *)
Module gpu_workspace.
Record t `{Curve21} : Type := mk {
  descriptor : proof_descriptor.t;
  round_index : N;
  a_vector : list Z;
  b_vector : list Z;
  g_vector : list element_p3;
}.
End gpu_workspace.

(** The span of a device-resident [managed_array] of scalars. *)
Definition device_span (v : list Z) : span := mk_span true v.

(** Modelled from the spec: [decompose_generator_fold] of
    [sxt/proof/inner_product/generator_fold.h] encodes the two multipliers
    jointly (section 4.2); the encoding is kept as the pair itself. *)
Definition decompose_generator_fold (m_low m_high : Z) : Z * Z := (m_low, m_high).

(** Modelled from the spec: [fold_generators] of
    [sxt/proof/inner_product/generator_fold_kernel.h] (section 4.2): with
    [mid] half the length, [g'[i] = m_low * g[i] + m_high * g[mid + i]] for
    [i < mid], in place, under the shape precondition of [fold_scalars]. *)
Definition fold_generators `{Curve21} (cfg : build) (g_vector : list element_p3)
    (decomposition : Z * Z) : outcome (list element_p3) :=
  let n := Z.of_nat (length g_vector) in
  let mid := n / 2 in
  if (0 <? mid) && (n =? 2 * mid) then
    Done (zip_with (fun lo hi => c21o_add (c21o_scalar_multiply (fst decomposition) lo)
                                          (c21o_scalar_multiply (snd decomposition) hi))
                   (take (Z.to_nat mid) g_vector) (drop (Z.to_nat mid) g_vector)
          ++ drop (Z.to_nat mid) g_vector)
  else match cfg with
       | Debug => AssertionFailed
       | Release => Undefined
       end.

(** The host driver ([sxt/proof/inner_product/cpu_driver.h]) is used by the
    device driver through one member function; its definition is outside
    the files modelled here, so it is an operation of a class as well. *)
Class cpu_driver `{Curve21} : Type := {
  cpu_compute_expected_commitment :
    proof_descriptor.t -> list compressed_element -> list compressed_element ->
    list Z -> Z -> outcome compressed_element;
}.

(** ** The device driver *)

Module gpu_driver.

(** [commit_to_fold_partial]: the value written to [commit].
    [mtxb::to_exponent_sequence] hands the scalars of [u_vector] to the
    multiexponentiation as its exponents; the two futures are awaited in
    turn. *)
Definition commit_to_fold_partial `{Curve21} (g_vector : list element_p3)
    (q_value : element_p3) (u_vector v_vector : list Z) : outcome compressed_element :=
  let! g_u := subspan g_vector 0 (Z.of_nat (length u_vector)) in
  let u_commit := multiexponentiation g_u u_vector in
  let product := s25.inner_product u_vector v_vector in
  let commit_p := c21o_scalar_multiply product q_value in
  let commit_p := c21o_add u_commit commit_p in
  Done (rsto_compress commit_p).

(** [gpu_driver::make_workspace]: the workspace the returned future holds. *)
Definition make_workspace `{Curve21} (descriptor : proof_descriptor.t)
    (a_vector : list Z) : outcome gpu_workspace.t :=
  Done (gpu_workspace.mk _ descriptor 0%N
          a_vector
          (proof_descriptor.b_vector descriptor)
          (proof_descriptor.g_vector descriptor)).

(** [gpu_driver::commit_to_fold]: the values written to [l_value] and
    [r_value]. *)
Definition commit_to_fold `{Curve21} (cfg : build) (work : gpu_workspace.t)
  : outcome (compressed_element * compressed_element) :=
  let mid := Z.of_nat (length (gpu_workspace.g_vector work)) / 2 in
  let! _ := SXT_DEBUG_ASSERT cfg (0 <? mid) in
  let! a_low := subspan (gpu_workspace.a_vector work) 0 mid in
  let! a_high := subspan_from (gpu_workspace.a_vector work) mid in
  let! b_low := subspan (gpu_workspace.b_vector work) 0 mid in
  let! b_high := subspan_from (gpu_workspace.b_vector work) mid in
  let! g_low := subspan (gpu_workspace.g_vector work) 0 mid in
  let! g_high := subspan_from (gpu_workspace.g_vector work) mid in
  let q_value := proof_descriptor.q_value (gpu_workspace.descriptor work) in
  let! l_value := commit_to_fold_partial g_high q_value a_low b_high in
  let! r_value := commit_to_fold_partial g_low q_value a_high b_low in
  Done (l_value, r_value).

(** [gpu_driver::fold]: the workspace once the returned future is ready.
    [mid] is a [size_t] and is narrowed to [unsigned] at the calls of
    [fold_scalars]. *)
Definition fold `{Curve21} (cfg : build) (work : gpu_workspace.t) (x : Z)
  : outcome gpu_workspace.t :=
  let mid := Z.of_nat (length (gpu_workspace.g_vector work)) / 2 in
  let round_index := (gpu_workspace.round_index work + 1)%N in
  let x_inv := s25.inv x in
  (* a_vector *)
  let! a_mem := fold_scalars cfg (device_span (gpu_workspace.a_vector work))
                             x x_inv (u32 mid) in
  let! a_vector := shrink (cells a_mem) mid in
  if mid =? 1 then
    Done (gpu_workspace.mk _ (gpu_workspace.descriptor work) round_index
            a_vector (gpu_workspace.b_vector work) (gpu_workspace.g_vector work))
  else
    (* b_vector *)
    let! b_mem := fold_scalars cfg (device_span (gpu_workspace.b_vector work))
                               x_inv x (u32 mid) in
    let! b_vector := shrink (cells b_mem) mid in
    (* g_vector *)
    let decomposition := decompose_generator_fold x_inv x in
    let! g_folded := fold_generators cfg (gpu_workspace.g_vector work) decomposition in
    let! g_vector := shrink g_folded mid in
    Done (gpu_workspace.mk _ (gpu_workspace.descriptor work) round_index
            a_vector b_vector g_vector).

(** [gpu_driver::compute_expected_commitment]: the value written to
    [commit]. *)
Definition compute_expected_commitment `{Curve21} `{!cpu_driver}
    (descriptor : proof_descriptor.t) (l_vector r_vector : list compressed_element)
    (x_vector : list Z) (ap_value : Z) : outcome compressed_element :=
  cpu_compute_expected_commitment descriptor l_vector r_vector x_vector ap_value.

End gpu_driver.

(** The rounds of a proof as far as the workspace is concerned: the
    prover calls [fold] once per round with the challenge of that round
    (section 4.5). *)
Fixpoint fold_rounds `{Curve21} (cfg : build) (work : gpu_workspace.t)
    (x_vector : list Z) : outcome gpu_workspace.t :=
  match x_vector with
  | [] => Done work
  | x :: x_vector' =>
      let! work' := gpu_driver.fold cfg work x in fold_rounds cfg work' x_vector'
  end.

(** ** Naive sequence commitments *)

Module sqcnv.

(** [mtxb::exponent_sequence] ([sxt_dense_sequence_descriptor] of the C
    interface): [element_nbytes] is a [uint8_t], [n] a [uint64_t], [data]
    the bytes [data] points to. *)
Record exponent_sequence : Type := mk_exponent_sequence {
  element_nbytes : Z;
  n : Z;
  data : list byte;
}.

(** The value of a byte string read as a little-endian integer. *)
Fixpoint le_value (bytes : list byte) : Z :=
  match bytes with
  | [] => 0
  | b :: bytes' => Z.of_N (Byte.to_N b) + 256 * le_value bytes'
  end.

(** [fill_data(a_i, bytes, element_nbytes)] of
    [sxt/seqcommit/naive/fill_data.h], after the comment at its call: the
    data values are inserted at the beginning of the 32 bytes of [a_i] and
    zeros are padded at the end. [offset] is the position of [bytes] in
    [data]; reading past [data] or writing past [a_i] is outside defined
    behaviour. *)
Definition fill_data (data : list byte) (offset element_nbytes : Z) : outcome (list byte) :=
  if (element_nbytes <=? 32) && (offset + element_nbytes <=? Z.of_nat (length data))
  then Done (take (Z.to_nat element_nbytes) (drop (Z.to_nat offset) data)
             ++ replicate (Z.to_nat (32 - element_nbytes)) x00)
  else Undefined.

(** The inner loop of [compute_commitments_cpu] from [row_i] on, [count]
    rows to go; [p_k] is the current value of the accumulator. *)
Fixpoint rows `{Curve21} (column_k_data : exponent_sequence) (count : nat)
    (row_i : Z) (p_k : element_p3) : outcome element_p3 :=
  match count with
  | O => Done p_k
  | S count' =>
      let element_nbytes := element_nbytes column_k_data in
      let offset := u64 (row_i * element_nbytes) in
      let g_i := sqcb_compute_base_element row_i in
      let! a_i := fill_data (data column_k_data) offset element_nbytes in
      let h_i := c21o_scalar_multiply (le_value a_i) g_i in
      let p_k := if row_i =? 0 then h_i else c21o_add p_k h_i in
      rows column_k_data count' (u64 (row_i + 1)) p_k
  end.

(** The outer loop of [compute_commitments_cpu] from [colum_k] on. The
    accumulator [p_k] is declared in the body of the loop without an
    initial value and has the same storage in every iteration: [stack] is
    what that storage holds when column [colum_k] begins, which for the
    next column is the value this column leaves in [p_k]. *)
Fixpoint columns `{Curve21} (stack : element_p3) (value_sequences : list exponent_sequence)
    (count : nat) (colum_k : Z) (commitments : list commitment)
  : outcome (list commitment) :=
  match count with
  | O => Done commitments
  | S count' =>
      match value_sequences !! Z.to_nat colum_k with
      | None => Undefined
      | Some column_k_data =>
          let! p_k := rows column_k_data (Z.to_nat (n column_k_data)) 0 stack in
          columns p_k value_sequences count' (colum_k + 1)
                  (<[Z.to_nat colum_k := c21rs_to_bytes p_k]> commitments)
      end
  end.

(** The accesses the loops make for a sequence stay inside its [data] and
    inside [a_i]: [data] holds the [n] elements of [element_nbytes] bytes
    each that the descriptor announces ([pedersen_capi.h]), an element has
    at most 32 bytes, and the counts are values of their types. *)
Definition readable (column_k_data : exponent_sequence) : Prop :=
  0 <= element_nbytes column_k_data <= 32
  /\ 0 <= n column_k_data < 2 ^ 64
  /\ n column_k_data * element_nbytes column_k_data
     <= Z.of_nat (length (data column_k_data)) < 2 ^ 64.

(** [compute_commitments_cpu]: the content of [commitments] on return;
    [stack] is what the storage of [p_k] holds on entry. *)
Definition compute_commitments_cpu `{Curve21} (cfg : build) (stack : element_p3)
    (commitments : list commitment) (value_sequences : list exponent_sequence)
  : outcome (list commitment) :=
  let! _ := cassert cfg
              (Z.of_nat (length commitments) =? Z.of_nat (length value_sequences)) in
  columns stack value_sequences (length commitments) 0 commitments.

End sqcnv.

(** ** Work items

    The work items the two cases of [fold_scalars] launch, and the accesses
    a work item makes when it runs on its own on the elements [s]. *)
Inductive work_item : Type :=
| Case1 (i : Z)
| Case2 (i : Z).

Definition work_item_kernel (m_low m_high mid m : Z) (w : work_item) : kernel unit :=
  match w with
  | Case1 i => fold_scalars_case1_f m_low m_high mid m i
  | Case2 i => fold_scalars_case2_f m_low m (u32 (mid - m)) i
  end.

Definition launched (mid m : Z) (w : work_item) : Prop :=
  match w with
  | Case1 i => 0 <= i < m
  | Case2 i => 0 <= i < u32 (mid - m)
  end.

Definition footprint (k : kernel unit) (s : list Z) : option (list access) :=
  match k (mk_dmem s []) with
  | Some (_, d) => Some (trace d)
  | None => None
  end.

Global Instance work_item_eq_dec : EqDecision work_item.
Proof. solve_decision. Defined.

(** The work items [fold_scalars] launches, case 1 first, and a run of
    work items in the order of a schedule. On the device the order is not
    fixed. *)
Definition work_items (mid m : Z) : list work_item :=
  (Case1 <$> seqZ 0 m) ++ (Case2 <$> seqZ 0 (u32 (mid - m))).

Fixpoint run_items (m_low m_high mid m : Z) (schedule : list work_item) : kernel unit :=
  match schedule with
  | [] => kret tt
  | w :: schedule' =>
      run! _ <- work_item_kernel m_low m_high mid m w;
      run_items m_low m_high mid m schedule'
  end.

(** * Properties *)

(** ** Scalars and memory accesses *)

Lemma muladd_mul (m_low m_high x y : Z) :
  s25.muladd m_high y (s25.mul m_low x) = (m_low * x + m_high * y) mod s25.ell.
Proof.
  unfold s25.muladd, s25.mul.
  rewrite Z.add_mod_idemp_r by (unfold s25.ell; lia).
  f_equal. lia.
Qed.

(** [s25.inv] is the power [ell - 2], the inverse by Fermat's theorem. *)
Lemma pow_power (b : Z) (e : positive) : s25.pow b e = b ^ Z.pos e mod s25.ell.
Proof.
  induction e as [e IH|e IH|]; cbn [s25.pow].
  - rewrite IH, Pos2Z.inj_xI, Z.pow_add_r, Z.pow_twice_r, Z.pow_1_r by lia.
    rewrite <- Z.mul_mod by (unfold s25.ell; lia).
    rewrite Z.mul_mod_idemp_l by (unfold s25.ell; lia).
    reflexivity.
  - rewrite IH, Pos2Z.inj_xO, Z.pow_twice_r.
    rewrite <- Z.mul_mod by (unfold s25.ell; lia). reflexivity.
  - rewrite Z.pow_1_r. reflexivity.
Qed.

Lemma inv_power (a : Z) : s25.inv a = a ^ (s25.ell - 2) mod s25.ell.
Proof. unfold s25.inv. rewrite pow_power. reflexivity. Qed.

Lemma u32_small (x : Z) : 0 <= x < 2 ^ 32 -> u32 x = x.
Proof. intros Hx. unfold u32. apply Z.mod_small. exact Hx. Qed.

Lemma u64_small (x : Z) : 0 <= x < 2 ^ 64 -> u64 x = x.
Proof. intros Hx. unfold u64. apply Z.mod_small. exact Hx. Qed.

Lemma load_ok (d : dmem) (i v : Z) :
  0 <= i -> cells d !! Z.to_nat i = Some v ->
  load i d = Some (v, mk_dmem (cells d) (Read i :: trace d)).
Proof.
  intros Hi Hv. unfold load.
  destruct (Z.leb_spec 0 i) as [_|Hneg]; [|lia].
  rewrite Hv. reflexivity.
Qed.

Lemma store_ok (d : dmem) (i v : Z) :
  0 <= i < Z.of_nat (length (cells d)) ->
  store i v d = Some (tt, mk_dmem (<[Z.to_nat i := v]> (cells d)) (Write i :: trace d)).
Proof.
  intros [Hlo Hhi]. unfold store.
  destruct (Z.leb_spec 0 i) as [_|Hneg]; [|lia].
  destruct (Z.ltb_spec i (Z.of_nat (length (cells d)))) as [_|Hge]; [|lia].
  reflexivity.
Qed.

Lemma lookup_Z_lt {A : Type} (l : list A) (i : Z) (x : A) :
  0 <= i -> l !! Z.to_nat i = Some x -> i < Z.of_nat (length l).
Proof. intros Hi Hx. apply lookup_lt_Some in Hx. lia. Qed.

Lemma lookup_Z_is_Some {A : Type} (l : list A) (i : Z) :
  0 <= i < Z.of_nat (length l) -> exists x, l !! Z.to_nat i = Some x.
Proof.
  intros Hi. destruct (lookup_lt_is_Some_2 l (Z.to_nat i)) as [x Hx]; [lia|].
  exists x. exact Hx.
Qed.

(** One work item of case 1: the cell [i] receives the folded value, and
    the item touches the cells [i] and [mid + i] only. *)
Lemma fold_scalars_case1_f_run (m_low m_high mid m i x y : Z) (d : dmem) :
  0 < mid -> 0 <= i -> mid + i < 2 ^ 32 ->
  cells d !! Z.to_nat i = Some x ->
  cells d !! Z.to_nat (mid + i) = Some y ->
  fold_scalars_case1_f m_low m_high mid m i d
  = Some (tt, mk_dmem (<[Z.to_nat i := (m_low * x + m_high * y) mod s25.ell]> (cells d))
                      (Write i :: Read i :: Read (mid + i) :: Write i :: Read i :: trace d)).
Proof.
  intros Hmid Hi Hwrap Hx Hy.
  pose proof (lookup_Z_lt _ _ _ Hi Hx) as Hlen.
  unfold fold_scalars_case1_f, kbind.
  rewrite (load_ok d i x Hi Hx).
  rewrite store_ok by (cbn; lia). cbn [cells trace].
  rewrite (u32_small (mid + i)) by lia.
  rewrite (load_ok _ (mid + i) y) by
    (cbn [cells]; first [lia | rewrite list_lookup_insert_ne by lia; exact Hy]).
  cbn [cells trace].
  rewrite (load_ok _ i (s25.mul m_low x)) by
    (cbn [cells]; first [lia | apply list_lookup_insert_eq; lia]).
  cbn [cells trace].
  rewrite store_ok by (cbn [cells]; rewrite length_insert; lia).
  cbn [cells trace].
  rewrite list_insert_insert_eq, muladd_mul. reflexivity.
Qed.

(** One work item of case 2: the cell [m + i] is scaled, nothing else is
    touched. *)
Lemma fold_scalars_case2_f_run (m_low m count i x : Z) (d : dmem) :
  0 <= m + i ->
  cells d !! Z.to_nat (m + i) = Some x ->
  fold_scalars_case2_f m_low m count i d
  = Some (tt, mk_dmem (<[Z.to_nat (m + i) := (m_low * x) mod s25.ell]> (cells d))
                      (Write (m + i) :: Read (m + i) :: trace d)).
Proof.
  intros Hi Hx.
  pose proof (lookup_Z_lt _ _ _ Hi Hx) as Hlen.
  unfold fold_scalars_case2_f, kbind.
  rewrite (load_ok d (m + i) x Hi Hx).
  rewrite store_ok by (cbn; lia).
  reflexivity.
Qed.

(** ** The two loops of [fold_scalars] *)

(** The work items [i, i + k) of case 1, on a memory where the cells
    [0, mid) hold the low and the cells from [mid] on the high half. *)
Lemma fold_scalars_case1_items (m_low m_high mid m : Z) (k : nat) :
  forall (i : Z) (d : dmem),
    0 < mid -> 0 <= i -> i + Z.of_nat k <= mid ->
    mid + i + Z.of_nat k <= Z.of_nat (length (cells d)) ->
    mid + i + Z.of_nat k <= 2 ^ 32 ->
    exists d' t,
      for_each_from (fold_scalars_case1_f m_low m_high mid) m k i d = Some (tt, d')
      /\ length (cells d') = length (cells d)
      /\ (forall j, 0 <= j -> ~ (i <= j < i + Z.of_nat k) ->
                    cells d' !! Z.to_nat j = cells d !! Z.to_nat j)
      /\ (forall j x y, i <= j < i + Z.of_nat k ->
                        cells d !! Z.to_nat j = Some x ->
                        cells d !! Z.to_nat (mid + j) = Some y ->
                        cells d' !! Z.to_nat j = Some ((m_low * x + m_high * y) mod s25.ell))
      /\ trace d' = t ++ trace d
      /\ (forall w, Write w ∈ t -> i <= w < i + Z.of_nat k)
      /\ (forall r, Read r ∈ t ->
                    i <= r < i + Z.of_nat k \/ mid + i <= r < mid + i + Z.of_nat k).
Proof.
  induction k as [|k IH]; intros i d Hmid Hi Hk Hlen Hwrap.
  - exists d, []. cbn.
    split; [reflexivity|]. split; [reflexivity|]. split; [reflexivity|].
    split; [intros j x y Hj; lia|]. split; [reflexivity|].
    split; [intros w Hw; inversion Hw | intros r Hr; inversion Hr].
  - destruct (lookup_Z_is_Some (cells d) i) as [x Hx]; [lia|].
    destruct (lookup_Z_is_Some (cells d) (mid + i)) as [y Hy]; [lia|].
    cbn [for_each_from]. unfold kbind at 1.
    rewrite (fold_scalars_case1_f_run m_low m_high mid m i x y d) by (done || lia).
    set (d1 := mk_dmem _ _).
    destruct (IH (i + 1) d1) as (d' & t & Hrun & Hl & Hout & Hin & Ht & Hw & Hr);
      try lia.
    { subst d1. cbn [cells]. rewrite length_insert. lia. }
    exists d', (t ++ [Write i; Read i; Read (mid + i); Write i; Read i]).
    split; [exact Hrun|].
    split; [rewrite Hl; subst d1; cbn [cells]; apply length_insert|].
    split; [|split; [|split; [|split]]].
    + intros j Hj Hnot. rewrite Hout by lia. subst d1. cbn [cells].
      apply list_lookup_insert_ne. lia.
    + intros j x' y' Hj Hx' Hy'.
      destruct (Z.eq_dec j i) as [->|Hne].
      * rewrite Hout by lia. subst d1. cbn [cells].
        rewrite Hx in Hx'. rewrite Hy in Hy'. injection Hx' as <-. injection Hy' as <-.
        apply list_lookup_insert_eq. apply lookup_lt_Some in Hx. exact Hx.
      * apply Hin; [lia| |]; subst d1; cbn [cells];
          (rewrite list_lookup_insert_ne by lia); assumption.
    + rewrite Ht. subst d1. cbn [trace]. rewrite <- app_assoc. reflexivity.
    + intros w Hin'. apply elem_of_app in Hin' as [Hin'|Hin'].
      * apply Hw in Hin'. lia.
      * repeat (apply elem_of_cons in Hin' as [Heq|Hin']; [try discriminate; injection Heq as ->; lia|]).
        inversion Hin'.
    + intros r Hin'. apply elem_of_app in Hin' as [Hin'|Hin'].
      * apply Hr in Hin'. lia.
      * repeat (apply elem_of_cons in Hin' as [Heq|Hin']; [try discriminate; injection Heq as ->; lia|]).
        inversion Hin'.
Qed.

(** The work items [i, i + k) of case 2, which scale the cells
    [m + i, m + i + k). *)
Lemma fold_scalars_case2_items (m_low m count : Z) (k : nat) :
  forall (i : Z) (d : dmem),
    0 <= m -> 0 <= i ->
    m + i + Z.of_nat k <= Z.of_nat (length (cells d)) ->
    exists d' t,
      for_each_from (fold_scalars_case2_f m_low m) count k i d = Some (tt, d')
      /\ length (cells d') = length (cells d)
      /\ (forall j, 0 <= j -> ~ (m + i <= j < m + i + Z.of_nat k) ->
                    cells d' !! Z.to_nat j = cells d !! Z.to_nat j)
      /\ (forall j x, m + i <= j < m + i + Z.of_nat k ->
                      cells d !! Z.to_nat j = Some x ->
                      cells d' !! Z.to_nat j = Some ((m_low * x) mod s25.ell))
      /\ trace d' = t ++ trace d
      /\ (forall a, a ∈ t -> exists j, (a = Write j \/ a = Read j)
                                       /\ m + i <= j < m + i + Z.of_nat k).
Proof.
  induction k as [|k IH]; intros i d Hm Hi Hlen.
  - exists d, []. cbn.
    split; [reflexivity|]. split; [reflexivity|]. split; [reflexivity|].
    split; [intros j x Hj; lia|]. split; [reflexivity|].
    intros a Ha. inversion Ha.
  - destruct (lookup_Z_is_Some (cells d) (m + i)) as [x Hx]; [lia|].
    cbn [for_each_from]. unfold kbind at 1.
    rewrite (fold_scalars_case2_f_run m_low m count i x d) by (done || lia).
    set (d1 := mk_dmem _ _).
    destruct (IH (i + 1) d1) as (d' & t & Hrun & Hl & Hout & Hin & Ht & Hacc);
      try lia.
    { subst d1. cbn [cells]. rewrite length_insert. lia. }
    exists d', (t ++ [Write (m + i); Read (m + i)]).
    split; [exact Hrun|].
    split; [rewrite Hl; subst d1; cbn [cells]; apply length_insert|].
    split; [|split; [|split]].
    + intros j Hj Hnot. rewrite Hout by lia. subst d1. cbn [cells].
      apply list_lookup_insert_ne. lia.
    + intros j x' Hj Hx'.
      destruct (Z.eq_dec j (m + i)) as [->|Hne].
      * rewrite Hout by lia. subst d1. cbn [cells].
        rewrite Hx in Hx'. injection Hx' as <-.
        apply list_lookup_insert_eq. apply lookup_lt_Some in Hx. exact Hx.
      * apply Hin; [lia|]. subst d1. cbn [cells].
        rewrite list_lookup_insert_ne by lia. assumption.
    + rewrite Ht. subst d1. cbn [trace]. rewrite <- app_assoc. reflexivity.
    + intros a Hin'. apply elem_of_app in Hin' as [Hin'|Hin'].
      * apply Hacc in Hin' as (j & Hj & Hr). exists j. split; [exact Hj|lia].
      * exists (m + i).
        apply elem_of_cons in Hin' as [->|Hin']; [split; [left; reflexivity|lia]|].
        apply elem_of_cons in Hin' as [->|Hin']; [split; [right; reflexivity|lia]|].
        inversion Hin'.
Qed.

(** ** [fold_scalars] under its precondition *)

(** With the precondition the assertion holds, so both builds run the same
    kernels. *)
Lemma fold_scalars_assertion_holds (scalars : span) (m_low m_high mid : Z) :
  is_device_pointer scalars = true ->
  0 < mid < Z.of_nat (length (elements scalars)) ->
  Z.of_nat (length (elements scalars)) <= 2 * mid ->
  2 * mid < 2 ^ 32 ->
  fold_scalars Debug scalars m_low m_high mid
  = fold_scalars Release scalars m_low m_high mid.
Proof.
  intros Hdev Hmid Hn Hwrap. unfold fold_scalars, SXT_DEBUG_ASSERT.
  rewrite Hdev, (u32_small (2 * mid)) by lia.
  destruct (Z.ltb_spec 0 mid); [|lia].
  destruct (Z.ltb_spec mid (Z.of_nat (length (elements scalars)))); [|lia].
  destruct (Z.leb_spec (Z.of_nat (length (elements scalars))) (2 * mid)); [|lia].
  reflexivity.
Qed.

(** The kernels of [fold_scalars]: what the memory holds and which cells
    were written once both cases are done. *)
Lemma fold_scalars_release_run (scalars : span) (m_low m_high mid : Z) :
  let s := elements scalars in
  let n := Z.of_nat (length s) in
  0 < mid < n -> n <= 2 * mid -> 2 * mid < 2 ^ 32 ->
  exists d,
    fold_scalars Release scalars m_low m_high mid = Done d
    /\ length (cells d) = length s
    /\ (forall i x y, 0 <= i < n - mid ->
                      s !! Z.to_nat i = Some x -> s !! Z.to_nat (mid + i) = Some y ->
                      cells d !! Z.to_nat i = Some ((m_low * x + m_high * y) mod s25.ell))
    /\ (forall i x, n - mid <= i < mid ->
                    s !! Z.to_nat i = Some x ->
                    cells d !! Z.to_nat i = Some ((m_low * x) mod s25.ell))
    /\ (forall j, mid <= j -> cells d !! Z.to_nat j = s !! Z.to_nat j)
    /\ (forall w, Write w ∈ trace d -> 0 <= w < mid).
Proof.
  intros s n Hmid Hn Hwrap.
  unfold fold_scalars, SXT_DEBUG_ASSERT, obind. fold s. fold n.
  rewrite (u64_small (n - mid)) by lia.
  rewrite (u32_small (n - mid)) by lia.
  unfold launch, fold_scalars_case1, fold_scalars_case2, for_each.
  destruct (fold_scalars_case1_items m_low m_high mid (n - mid)
              (Z.to_nat (n - mid)) 0 (mk_dmem s []))
    as (d1 & t1 & Hrun1 & Hl1 & Hout1 & Hin1 & Ht1 & Hw1 & _);
    try (cbn [cells]; fold n; lia).
  rewrite Hrun1. cbn [cells trace] in *.
  destruct (Z.eqb_spec (n - mid) mid) as [Heq|Hne].
  - exists d1. split; [reflexivity|]. split; [exact Hl1|].
    split; [|split; [|split]].
    + intros i x y Hi Hx Hy. apply (Hin1 i x y); [lia|exact Hx|exact Hy].
    + intros i x Hi. lia.
    + intros j Hj. apply Hout1; lia.
    + intros w Hw. rewrite Ht1, app_nil_r in Hw. apply Hw1 in Hw. lia.
  - rewrite (u32_small (mid - (n - mid))) by lia.
    destruct (fold_scalars_case2_items m_low (n - mid) (mid - (n - mid))
                (Z.to_nat (mid - (n - mid))) 0 d1)
      as (d2 & t2 & Hrun2 & Hl2 & Hout2 & Hin2 & Ht2 & Hacc2);
      try (rewrite ?Hl1; fold n; lia).
    rewrite Hrun2.
    exists d2. split; [reflexivity|]. split; [rewrite Hl2; exact Hl1|].
    split; [|split; [|split]].
    + intros i x y Hi Hx Hy. rewrite Hout2 by lia.
      apply (Hin1 i x y); [lia|exact Hx|exact Hy].
    + intros i x Hi Hx. apply Hin2; [lia|]. rewrite Hout1 by lia. exact Hx.
    + intros j Hj. rewrite Hout2 by lia. apply Hout1; lia.
    + intros w Hw. rewrite Ht2, Ht1, app_nil_r in Hw.
      apply elem_of_app in Hw as [Hw|Hw].
      * apply Hacc2 in Hw as (j & [Heq|Heq] & Hj); [|discriminate].
        injection Heq as ->. lia.
      * apply Hw1 in Hw. lia.
Qed.

(** The same for either build, for a device-resident span. *)
Lemma fold_scalars_run (cfg : build) (scalars : span) (m_low m_high mid : Z) :
  is_device_pointer scalars = true ->
  0 < mid < Z.of_nat (length (elements scalars)) ->
  Z.of_nat (length (elements scalars)) <= 2 * mid ->
  2 * mid < 2 ^ 32 ->
  exists d,
    fold_scalars cfg scalars m_low m_high mid = Done d
    /\ length (cells d) = length (elements scalars)
    /\ (forall i x y,
          0 <= i < Z.of_nat (length (elements scalars)) - mid ->
          elements scalars !! Z.to_nat i = Some x ->
          elements scalars !! Z.to_nat (mid + i) = Some y ->
          cells d !! Z.to_nat i = Some ((m_low * x + m_high * y) mod s25.ell))
    /\ (forall i x,
          Z.of_nat (length (elements scalars)) - mid <= i < mid ->
          elements scalars !! Z.to_nat i = Some x ->
          cells d !! Z.to_nat i = Some ((m_low * x) mod s25.ell))
    /\ (forall j, mid <= j -> cells d !! Z.to_nat j = elements scalars !! Z.to_nat j)
    /\ (forall w, Write w ∈ trace d -> 0 <= w < mid).
Proof.
  intros Hdev Hmid Hn Hwrap.
  destruct (fold_scalars_release_run scalars m_low m_high mid Hmid Hn Hwrap)
    as (d & Hrun & Hrest).
  exists d. split; [|exact Hrest].
  destruct cfg; [|exact Hrun].
  rewrite fold_scalars_assertion_holds by assumption. exact Hrun.
Qed.

(** From [mid = 2^31] on, the product [2u * mid] of the assertion no
    longer fits an [unsigned]: what is left of it is below [mid], and the
    assertion fails whatever the span. *)
Lemma fold_scalars_debug_wraps (scalars : span) (m_low m_high mid : Z) :
  2 ^ 31 <= mid < 2 ^ 32 ->
  fold_scalars Debug scalars m_low m_high mid = AssertionFailed.
Proof.
  intros Hmid. unfold fold_scalars, SXT_DEBUG_ASSERT.
  assert (Hwrap : u32 (2 * mid) = 2 * mid - 2 ^ 32).
  { unfold u32. symmetry. apply (Z.mod_unique_pos _ _ 1); lia. }
  rewrite Hwrap.
  destruct (is_device_pointer scalars); [|reflexivity].
  destruct (Z.ltb_spec 0 mid); [|reflexivity].
  destruct (Z.ltb_spec mid (Z.of_nat (length (elements scalars)))); [|reflexivity].
  destruct (Z.leb_spec (Z.of_nat (length (elements scalars))) (2 * mid - 2 ^ 32));
    [lia|reflexivity].
Qed.

(** C3 as stated does not hold: a device-resident span of
    [n = 2^31 + 2] elements and [mid = 2^31 + 1] satisfy
    [0 < mid < n <= 2 * mid], but [2u * mid] is a product of two
    [unsigned] and comes out as 2, so with debug assertions the call
    stops on [n <= 2u * mid] and the span is not folded. *)
Lemma fold_scalars_long_span :
  ~ (forall (cfg : build) (scalars : span) (m_low m_high mid : Z),
       is_device_pointer scalars = true ->
       0 < mid < Z.of_nat (length (elements scalars)) ->
       Z.of_nat (length (elements scalars)) <= 2 * mid ->
       exists d,
         fold_scalars cfg scalars m_low m_high mid = Done d
         /\ (forall i x y,
               0 <= i < Z.of_nat (length (elements scalars)) - mid ->
               elements scalars !! Z.to_nat i = Some x ->
               elements scalars !! Z.to_nat (mid + i) = Some y ->
               cells d !! Z.to_nat i = Some ((m_low * x + m_high * y) mod s25.ell))
         /\ (forall i x,
               Z.of_nat (length (elements scalars)) - mid <= i < mid ->
               elements scalars !! Z.to_nat i = Some x ->
               cells d !! Z.to_nat i = Some ((m_low * x) mod s25.ell))).
Proof.
  intros Hclaim.
  destruct (Hclaim Debug (mk_span true (replicate (Z.to_nat (2 ^ 31 + 2)) 0))
              1 1 (2 ^ 31 + 1)) as (d & Hrun & _).
  - reflexivity.
  - cbn [elements]. rewrite length_replicate. lia.
  - cbn [elements]. rewrite length_replicate. lia.
  - rewrite fold_scalars_debug_wraps in Hrun by lia. discriminate Hrun.
Qed.

(** C3, amended. For a device-resident span of length [n] and a midpoint
    with [0 < mid < n <= 2 * mid] and [2 * mid < 2^32], the range in
    which the [unsigned] product [2u * mid] is exact, [fold_scalars]
    returns in either build and leaves, with [m = n - mid],
    [s[i] = m_low * s_old[i] + m_high * s_old[mid + i]] for [i] in [0, m)
    and [s[i] = m_low * s_old[i]] for [i] in [m, mid); the span keeps its
    length. *)
Theorem fold_scalars_folds (cfg : build) (scalars : span) (m_low m_high mid : Z) :
  is_device_pointer scalars = true ->
  0 < mid < Z.of_nat (length (elements scalars)) ->
  Z.of_nat (length (elements scalars)) <= 2 * mid ->
  2 * mid < 2 ^ 32 ->
  exists d,
    fold_scalars cfg scalars m_low m_high mid = Done d
    /\ length (cells d) = length (elements scalars)
    /\ (forall i x y,
          0 <= i < Z.of_nat (length (elements scalars)) - mid ->
          elements scalars !! Z.to_nat i = Some x ->
          elements scalars !! Z.to_nat (mid + i) = Some y ->
          cells d !! Z.to_nat i = Some ((m_low * x + m_high * y) mod s25.ell))
    /\ (forall i x,
          Z.of_nat (length (elements scalars)) - mid <= i < mid ->
          elements scalars !! Z.to_nat i = Some x ->
          cells d !! Z.to_nat i = Some ((m_low * x) mod s25.ell)).
Proof.
  intros Hdev Hmid Hn Hwrap.
  destruct (fold_scalars_run cfg scalars m_low m_high mid Hdev Hmid Hn Hwrap)
    as (d & Hrun & Hlen & Hlow & Htail & _ & _).
  exists d. split; [exact Hrun|split; [exact Hlen|split; [exact Hlow|exact Htail]]].
Qed.

Lemma fold_scalars_folds_witness :
  exists d,
    fold_scalars Debug (mk_span true [1; 2; 3]) 5 7 2 = Done d
    /\ length (cells d) = 3%nat
    /\ (forall i x y,
          0 <= i < 3 - 2 ->
          [1; 2; 3] !! Z.to_nat i = Some x ->
          [1; 2; 3] !! Z.to_nat (2 + i) = Some y ->
          cells d !! Z.to_nat i = Some ((5 * x + 7 * y) mod s25.ell))
    /\ (forall i x,
          3 - 2 <= i < 2 ->
          [1; 2; 3] !! Z.to_nat i = Some x ->
          cells d !! Z.to_nat i = Some ((5 * x) mod s25.ell)).
Proof.
  apply (fold_scalars_folds Debug (mk_span true [1; 2; 3]) 5 7 2);
    cbn; first [reflexivity | lia].
Defined.

(** The even and the odd-tail case on concrete spans. *)
Example fold_scalars_even :
  fold_scalars Debug (mk_span true [1; 2; 3; 4]) 5 7 2
  = Done (mk_dmem [26; 38; 3; 4]
            [Write 1; Read 1; Read 3; Write 1; Read 1;
             Write 0; Read 0; Read 2; Write 0; Read 0]).
Proof. vm_compute. reflexivity. Qed.

Example fold_scalars_odd_tail :
  fold_scalars Release (mk_span true [1; 2; 3]) 5 7 2
  = Done (mk_dmem [26; 10; 3]
            [Write 1; Read 1; Write 0; Read 0; Read 2; Write 0; Read 0]).
Proof. vm_compute. reflexivity. Qed.

(** ** Work items of [fold_scalars] and the cells they touch *)

Lemma footprint_case1 (m_low m_high mid m i : Z) (s : list Z) :
  0 < mid -> 0 <= i -> mid + i < Z.of_nat (length s) -> mid + i < 2 ^ 32 ->
  footprint (work_item_kernel m_low m_high mid m (Case1 i)) s
  = Some [Write i; Read i; Read (mid + i); Write i; Read i].
Proof.
  intros Hmid Hi Hlen Hwrap. unfold footprint, work_item_kernel.
  destruct (lookup_Z_is_Some s i) as [x Hx]; [lia|].
  destruct (lookup_Z_is_Some s (mid + i)) as [y Hy]; [lia|].
  rewrite (fold_scalars_case1_f_run m_low m_high mid m i x y) by (done || lia).
  reflexivity.
Qed.

Lemma footprint_case2 (m_low m_high mid m i : Z) (s : list Z) :
  0 <= m -> 0 <= i -> m + i < Z.of_nat (length s) ->
  footprint (work_item_kernel m_low m_high mid m (Case2 i)) s
  = Some [Write (m + i); Read (m + i)].
Proof.
  intros Hm Hi Hlen. unfold footprint, work_item_kernel.
  destruct (lookup_Z_is_Some s (m + i)) as [x Hx]; [lia|].
  rewrite (fold_scalars_case2_f_run m_low m _ i x) by (done || lia).
  reflexivity.
Qed.

Lemma footprint_launched (m_low m_high mid : Z) (s : list Z) (w : work_item) :
  0 < mid < Z.of_nat (length s) ->
  Z.of_nat (length s) <= 2 * mid ->
  2 * mid < 2 ^ 32 ->
  launched mid (Z.of_nat (length s) - mid) w ->
  footprint (work_item_kernel m_low m_high mid (Z.of_nat (length s) - mid) w) s
  = Some (match w with
          | Case1 i => [Write i; Read i; Read (mid + i); Write i; Read i]
          | Case2 i => [Write (Z.of_nat (length s) - mid + i);
                        Read (Z.of_nat (length s) - mid + i)]
          end).
Proof.
  intros Hmid Hn Hwrap Hw. destruct w as [i|i]; cbn [launched] in Hw.
  - apply footprint_case1; lia.
  - rewrite u32_small in Hw by lia. apply footprint_case2; lia.
Qed.

Ltac access_cases H :=
  repeat (apply elem_of_cons in H as [H|H]; [try discriminate H; try injection H as H|]);
  try (apply elem_of_nil in H; destruct H).

(** A work item of case 1 whose sum [mid + i] does not fit an [unsigned]
    reads its partner at what is left of the sum. *)
Lemma footprint_case1_wrapped (m_low m_high mid m i : Z) (s : list Z) :
  0 <= i < Z.of_nat (length s) ->
  u32 (mid + i) < Z.of_nat (length s) ->
  footprint (work_item_kernel m_low m_high mid m (Case1 i)) s
  = Some [Write i; Read i; Read (u32 (mid + i)); Write i; Read i].
Proof.
  intros Hi Hpartner.
  assert (Hpos : 0 <= u32 (mid + i)) by (unfold u32; apply Z.mod_pos_bound; lia).
  unfold footprint, work_item_kernel, fold_scalars_case1_f, kbind.
  destruct (lookup_Z_is_Some s i) as [x Hx]; [lia|].
  rewrite (load_ok (mk_dmem s []) i x) by (cbn [cells]; first [lia | exact Hx]).
  rewrite store_ok by (cbn [cells]; lia). cbn [cells trace].
  destruct (lookup_Z_is_Some (<[Z.to_nat i := s25.mul m_low x]> s) (u32 (mid + i)))
    as [y Hy]; [rewrite length_insert; lia|].
  rewrite (load_ok _ (u32 (mid + i)) y) by (cbn [cells]; first [lia | exact Hy]).
  cbn [cells trace].
  rewrite (load_ok _ i (s25.mul m_low x)) by
    (cbn [cells]; first [lia | apply list_lookup_insert_eq; lia]).
  cbn [cells trace].
  rewrite store_ok by (cbn [cells]; rewrite length_insert; lia).
  reflexivity.
Qed.

(** C9 as stated does not hold: on a device-resident span of
    [n = 2^32 + 1] elements with [mid = 2^31 + 1], which satisfy
    [0 < mid < n <= 2 * mid], case 1 launches the work items
    [0 .. 2^31 - 1]; for the last one the [unsigned] sum [mid + i] is
    [2^32] and comes out as 0, so it reads [s[0]], the cell the work
    item 0 writes. (With debug assertions the call stops before that:
    [2u * mid] comes out as 2.) *)
Lemma fold_scalars_case1_reads_written_cell :
  ~ (forall (cfg : build) (scalars : span) (m_low m_high mid : Z),
       is_device_pointer scalars = true ->
       0 < mid < Z.of_nat (length (elements scalars)) ->
       Z.of_nat (length (elements scalars)) <= 2 * mid ->
       (forall w, launched mid (Z.of_nat (length (elements scalars)) - mid) w ->
          exists t,
            footprint (work_item_kernel m_low m_high mid
                         (Z.of_nat (length (elements scalars)) - mid) w)
                      (elements scalars) = Some t
            /\ (forall w' t' i,
                  launched mid (Z.of_nat (length (elements scalars)) - mid) w' ->
                  w' <> w ->
                  footprint (work_item_kernel m_low m_high mid
                               (Z.of_nat (length (elements scalars)) - mid) w')
                            (elements scalars) = Some t' ->
                  Write i ∈ t -> (Write i ∉ t') /\ (Read i ∉ t')))
       /\ exists d,
            fold_scalars cfg scalars m_low m_high mid = Done d
            /\ (forall i, Write i ∈ trace d -> 0 <= i < mid)
            /\ (forall j, mid <= j < Z.of_nat (length (elements scalars)) ->
                          cells d !! Z.to_nat j = elements scalars !! Z.to_nat j)).
Proof.
  intros Hclaim.
  remember (replicate (Z.to_nat (2 ^ 32 + 1)) 0) as s eqn:Hs.
  assert (Hlen : Z.of_nat (length s) = 2 ^ 32 + 1)
    by (subst s; rewrite length_replicate; lia).
  destruct (Hclaim Release (mk_span true s) 1 1 (2 ^ 31 + 1)) as [Hitems _];
    try (cbn [elements is_device_pointer]; first [reflexivity | lia]).
  cbn [elements] in Hitems. rewrite Hlen in Hitems.
  destruct (Hitems (Case1 0)) as (t & Ht & Hdisjoint); [cbn [launched]; lia|].
  rewrite footprint_case1 in Ht by lia. injection Ht as <-.
  destruct (Hdisjoint (Case1 (2 ^ 31 - 1))
              [Write (2 ^ 31 - 1); Read (2 ^ 31 - 1); Read 0;
               Write (2 ^ 31 - 1); Read (2 ^ 31 - 1)] 0) as [_ Hread].
  - cbn [launched]. lia.
  - discriminate.
  - rewrite footprint_case1_wrapped; [reflexivity|lia|].
    replace (2 ^ 31 + 1 + (2 ^ 31 - 1)) with (2 ^ 32) by lia.
    change (u32 (2 ^ 32)) with 0. lia.
  - apply elem_of_cons. left. reflexivity.
  - apply Hread. apply elem_of_cons. right. apply elem_of_cons. right.
    apply elem_of_cons. left. reflexivity.
Qed.

(** C9, amended. For a device-resident span under
    [0 < mid < n <= 2 * mid] and [2 * mid < 2^32], the range in which the
    [unsigned] sum [mid + i] and product [2u * mid] are exact: every work
    item of case 1
    writes inside [0, n - mid) and every work item of case 2 inside
    [n - mid, mid); a work item reads the cell it writes and otherwise
    only cells from [mid] on; a cell written by one work item is neither
    written nor read by any other work item of either case; and the whole
    of [fold_scalars] writes no cell from [mid] on, so that [s[mid..n)] is
    unchanged. *)
Theorem fold_scalars_disjoint_accesses (cfg : build) (scalars : span)
    (m_low m_high mid : Z) :
  is_device_pointer scalars = true ->
  0 < mid < Z.of_nat (length (elements scalars)) ->
  Z.of_nat (length (elements scalars)) <= 2 * mid ->
  2 * mid < 2 ^ 32 ->
  (forall w, launched mid (Z.of_nat (length (elements scalars)) - mid) w ->
     exists t,
       footprint (work_item_kernel m_low m_high mid
                    (Z.of_nat (length (elements scalars)) - mid) w)
                 (elements scalars) = Some t
       /\ (forall i, Write i ∈ t ->
             match w with
             | Case1 _ => 0 <= i < Z.of_nat (length (elements scalars)) - mid
             | Case2 _ => Z.of_nat (length (elements scalars)) - mid <= i < mid
             end)
       /\ (forall i, Read i ∈ t ->
             Write i ∈ t \/ mid <= i < Z.of_nat (length (elements scalars)))
       /\ (forall w' t' i,
             launched mid (Z.of_nat (length (elements scalars)) - mid) w' ->
             w' <> w ->
             footprint (work_item_kernel m_low m_high mid
                          (Z.of_nat (length (elements scalars)) - mid) w')
                       (elements scalars) = Some t' ->
             Write i ∈ t -> (Write i ∉ t') /\ (Read i ∉ t')))
  /\ exists d,
       fold_scalars cfg scalars m_low m_high mid = Done d
       /\ (forall i, Write i ∈ trace d -> 0 <= i < mid)
       /\ (forall j, mid <= j < Z.of_nat (length (elements scalars)) ->
                     cells d !! Z.to_nat j = elements scalars !! Z.to_nat j).
Proof.
  intros Hdev Hmid Hn Hwrap. split.
  - intros w Hw.
    rewrite (footprint_launched m_low m_high mid _ w Hmid Hn Hwrap Hw).
    eexists. split; [reflexivity|]. split; [|split].
    + intros i Hi. destruct w as [k|k]; cbn [launched] in Hw.
      * access_cases Hi; lia.
      * rewrite u32_small in Hw by lia. access_cases Hi; lia.
    + intros i Hi. destruct w as [k|k]; cbn [launched] in Hw.
      * access_cases Hi; subst i; [left; left|right; lia|left; left].
      * access_cases Hi; subst i. left; left.
    + intros w' t' i Hw' Hne Ht' Hi.
      rewrite (footprint_launched m_low m_high mid _ w' Hmid Hn Hwrap Hw') in Ht'.
      injection Ht' as <-.
      destruct w as [k|k], w' as [k'|k']; cbn [launched] in Hw, Hw';
        try rewrite u32_small in Hw by lia; try rewrite u32_small in Hw' by lia;
        try (assert (Hkk : k' <> k) by (intros ->; apply Hne; reflexivity));
        clear Hne; access_cases Hi; subst i;
        (split; intros Hin; access_cases Hin; lia).
  - destruct (fold_scalars_run cfg scalars m_low m_high mid Hdev Hmid Hn Hwrap)
      as (d & Hrun & _ & _ & _ & Hhigh & Hwr).
    exists d. split; [exact Hrun|split; [exact Hwr|intros j Hj; apply Hhigh; lia]].
Qed.

Lemma fold_scalars_disjoint_accesses_witness :
  exists d,
    fold_scalars Debug (mk_span true [1; 2; 3]) 5 7 2 = Done d
    /\ (forall i, Write i ∈ trace d -> 0 <= i < 2)
    /\ (forall j, 2 <= j < 3 -> cells d !! Z.to_nat j = [1; 2; 3] !! Z.to_nat j).
Proof.
  apply (fold_scalars_disjoint_accesses Debug (mk_span true [1; 2; 3]) 5 7 2);
    cbn; first [reflexivity | lia].
Defined.

(** ** Schedules *)

Lemma for_each_case1_schedule (m_low m_high mid m : Z) (k : nat) :
  forall (i : Z) (d : dmem),
    for_each_from (fold_scalars_case1_f m_low m_high mid) m k i d
    = run_items m_low m_high mid m (Case1 <$> seqZ i (Z.of_nat k)) d.
Proof.
  induction k as [|k IH]; intros i d; [reflexivity|].
  rewrite (seqZ_cons i (Z.of_nat (S k))) by lia.
  replace (Z.pred (Z.of_nat (S k))) with (Z.of_nat k) by lia.
  cbn [for_each_from fmap list_fmap run_items work_item_kernel]. unfold kbind.
  destruct (fold_scalars_case1_f _ _ _ _ _ _) as [[[] d1]|]; [|reflexivity].
  apply IH.
Qed.

Lemma for_each_case2_schedule (m_low m_high mid m : Z) (k : nat) :
  forall (i : Z) (d : dmem),
    for_each_from (fold_scalars_case2_f m_low m) (u32 (mid - m)) k i d
    = run_items m_low m_high mid m (Case2 <$> seqZ i (Z.of_nat k)) d.
Proof.
  induction k as [|k IH]; intros i d; [reflexivity|].
  rewrite (seqZ_cons i (Z.of_nat (S k))) by lia.
  replace (Z.pred (Z.of_nat (S k))) with (Z.of_nat k) by lia.
  cbn [for_each_from fmap list_fmap run_items work_item_kernel]. unfold kbind.
  destruct (fold_scalars_case2_f _ _ _ _ _) as [[[] d1]|]; [|reflexivity].
  apply IH.
Qed.

Lemma run_items_app (m_low m_high mid m : Z) (l1 l2 : list work_item) (d : dmem) :
  run_items m_low m_high mid m (l1 ++ l2) d
  = match run_items m_low m_high mid m l1 d with
    | Some (_, d1) => run_items m_low m_high mid m l2 d1
    | None => None
    end.
Proof.
  revert d. induction l1 as [|w l1 IH]; intros d; [reflexivity|].
  cbn [app run_items]. unfold kbind.
  destruct (work_item_kernel _ _ _ _ _ _) as [[[] d1]|]; [apply IH|reflexivity].
Qed.

(** In a build without assertions, [fold_scalars] is the run of its work
    items in launch order. *)
Lemma fold_scalars_launch_order (scalars : span) (m_low m_high mid : Z) :
  0 < mid < Z.of_nat (length (elements scalars)) ->
  Z.of_nat (length (elements scalars)) <= 2 * mid ->
  2 * mid < 2 ^ 32 ->
  fold_scalars Release scalars m_low m_high mid
  = launch (run_items m_low m_high mid (Z.of_nat (length (elements scalars)) - mid)
              (work_items mid (Z.of_nat (length (elements scalars)) - mid)))
           (mk_dmem (elements scalars) []).
Proof.
  intros Hmid Hn Hwrap. unfold fold_scalars, SXT_DEBUG_ASSERT, obind, launch, work_items.
  set (n := Z.of_nat (length (elements scalars))).
  rewrite (u64_small (n - mid)), (u32_small (n - mid)) by lia.
  rewrite run_items_app.
  unfold fold_scalars_case1, fold_scalars_case2, for_each.
  rewrite for_each_case1_schedule, Z2Nat.id by lia.
  destruct (run_items _ _ _ _ (Case1 <$> _) _) as [[[] d1]|]; [|reflexivity].
  destruct (Z.eqb_spec (n - mid) mid) as [Heq|Hne].
  - rewrite Heq, Z.sub_diag. reflexivity.
  - rewrite (for_each_case2_schedule m_low m_high), Z2Nat.id
      by (rewrite u32_small; lia).
    reflexivity.
Qed.

(** What the memory holds after the work items of a schedule without
    repetitions: a cell with a work item in the schedule holds its folded
    value, any other cell is as before. *)
Lemma run_items_cells (m_low m_high mid m : Z) (schedule : list work_item) :
  forall d : dmem,
    0 < mid -> 0 <= m <= mid -> mid + m <= Z.of_nat (length (cells d)) ->
    2 * mid < 2 ^ 32 ->
    NoDup schedule ->
    (forall w, w ∈ schedule -> launched mid m w) ->
    exists d',
      run_items m_low m_high mid m schedule d = Some (tt, d')
      /\ length (cells d') = length (cells d)
      /\ (forall j, 0 <= j -> Case1 j ∉ schedule -> Case2 (j - m) ∉ schedule ->
                    cells d' !! Z.to_nat j = cells d !! Z.to_nat j)
      /\ (forall i x y, Case1 i ∈ schedule ->
                        cells d !! Z.to_nat i = Some x ->
                        cells d !! Z.to_nat (mid + i) = Some y ->
                        cells d' !! Z.to_nat i
                        = Some ((m_low * x + m_high * y) mod s25.ell))
      /\ (forall i x, Case2 i ∈ schedule ->
                      cells d !! Z.to_nat (m + i) = Some x ->
                      cells d' !! Z.to_nat (m + i) = Some ((m_low * x) mod s25.ell)).
Proof.
  induction schedule as [|w schedule IH]; intros d Hmid Hm Hlen Hwrap Hnodup Hall.
  - exists d. split; [reflexivity|]. split; [reflexivity|]. split; [reflexivity|].
    split; [intros i x y Hin|intros i x Hin]; apply elem_of_nil in Hin; destruct Hin.
  - apply NoDup_cons in Hnodup as [Hfresh Hnodup].
    assert (Hw : launched mid m w) by (apply Hall; left).
    assert (Hall' : forall w', w' ∈ schedule -> launched mid m w')
      by (intros w' Hw'; apply Hall; right; exact Hw').
    assert (Hu : u32 (mid - m) = mid - m) by (apply u32_small; lia).
    cbn [run_items]. unfold kbind.
    destruct w as [k|k]; cbn [launched work_item_kernel] in *; rewrite ?Hu in Hw.
    + destruct (lookup_Z_is_Some (cells d) k) as [xk Hxk]; [lia|].
      destruct (lookup_Z_is_Some (cells d) (mid + k)) as [yk Hyk]; [lia|].
      rewrite (fold_scalars_case1_f_run m_low m_high mid m k xk yk d) by (done || lia).
      set (d1 := mk_dmem _ _).
      assert (Hlen1 : length (cells d1) = length (cells d))
        by (subst d1; cbn [cells]; apply length_insert).
      destruct (IH d1) as (d' & Hrun & Hl & Hout & Hc1 & Hc2);
        try (assumption || rewrite ?Hlen1; lia).
      exists d'. split; [exact Hrun|]. split; [rewrite Hl; exact Hlen1|].
      split; [|split].
      * intros j Hj Hn1 Hn2. rewrite not_elem_of_cons in Hn1, Hn2.
        destruct Hn1 as [Hne Hn1]. destruct Hn2 as [_ Hn2].
        rewrite Hout by assumption. subst d1. cbn [cells].
        apply list_lookup_insert_ne. intros Heq. apply Hne. f_equal. lia.
      * intros i x y Hin Hx Hy. apply elem_of_cons in Hin as [Heq|Hin].
        -- injection Heq as ->. rewrite Hx in Hxk. rewrite Hy in Hyk.
           injection Hxk as <-. injection Hyk as <-.
           rewrite Hout; [| lia | exact Hfresh |].
           ++ subst d1. cbn [cells]. apply list_lookup_insert_eq.
              apply lookup_lt_Some in Hx. exact Hx.
           ++ intros Hbad. apply Hall' in Hbad. cbn [launched] in Hbad. lia.
        -- assert (Hi : 0 <= i < m) by (apply Hall' in Hin; exact Hin).
           assert (Hne : i <> k) by (intros ->; exact (Hfresh Hin)).
           apply Hc1; [exact Hin| |]; subst d1; cbn [cells];
             (rewrite list_lookup_insert_ne by lia); assumption.
      * intros i x Hin Hx. apply elem_of_cons in Hin as [Heq|Hin]; [discriminate Heq|].
        assert (Hi : 0 <= i < mid - m)
          by (apply Hall' in Hin; cbn [launched] in Hin; rewrite Hu in Hin; exact Hin).
        apply Hc2; [exact Hin|]. subst d1. cbn [cells].
        rewrite list_lookup_insert_ne by lia. exact Hx.
    + destruct (lookup_Z_is_Some (cells d) (m + k)) as [xk Hxk]; [lia|].
      rewrite (fold_scalars_case2_f_run m_low m _ k xk d) by (done || lia).
      set (d1 := mk_dmem _ _).
      assert (Hlen1 : length (cells d1) = length (cells d))
        by (subst d1; cbn [cells]; apply length_insert).
      destruct (IH d1) as (d' & Hrun & Hl & Hout & Hc1 & Hc2);
        try (assumption || rewrite ?Hlen1; lia).
      exists d'. split; [exact Hrun|]. split; [rewrite Hl; exact Hlen1|].
      split; [|split].
      * intros j Hj Hn1 Hn2. rewrite not_elem_of_cons in Hn1, Hn2.
        destruct Hn1 as [_ Hn1]. destruct Hn2 as [Hne Hn2].
        rewrite Hout by assumption. subst d1. cbn [cells].
        apply list_lookup_insert_ne. intros Heq. apply Hne. f_equal. lia.
      * intros i x y Hin Hx Hy. apply elem_of_cons in Hin as [Heq|Hin]; [discriminate Heq|].
        assert (Hi : 0 <= i < m) by (apply Hall' in Hin; exact Hin).
        apply Hc1; [exact Hin| |]; subst d1; cbn [cells];
          (rewrite list_lookup_insert_ne by lia); assumption.
      * intros i x Hin Hx. apply elem_of_cons in Hin as [Heq|Hin].
        -- injection Heq as ->. rewrite Hx in Hxk. injection Hxk as <-.
           rewrite Hout; [| lia | |].
           ++ subst d1. cbn [cells]. apply list_lookup_insert_eq.
              apply lookup_lt_Some in Hx. exact Hx.
           ++ intros Hbad. apply Hall' in Hbad. cbn [launched] in Hbad. lia.
           ++ replace (m + k - m) with k by lia. exact Hfresh.
        -- assert (Hi : 0 <= i < mid - m)
             by (apply Hall' in Hin; cbn [launched] in Hin; rewrite Hu in Hin; exact Hin).
           assert (Hne : i <> k) by (intros ->; exact (Hfresh Hin)).
           apply Hc2; [exact Hin|]. subst d1. cbn [cells].
           rewrite list_lookup_insert_ne by lia. exact Hx.
Qed.

Local Instance Case1_inj : Inj (=) (=) Case1.
Proof. intros i j Heq. injection Heq as ->. reflexivity. Qed.

Local Instance Case2_inj : Inj (=) (=) Case2.
Proof. intros i j Heq. injection Heq as ->. reflexivity. Qed.

Lemma work_items_NoDup (mid m : Z) : NoDup (work_items mid m).
Proof.
  unfold work_items. apply NoDup_app. split; [|split].
  - apply (NoDup_fmap_2 Case1), NoDup_seqZ.
  - intros w Hw1 Hw2.
    apply list_elem_of_fmap in Hw1 as (i & -> & _).
    apply list_elem_of_fmap in Hw2 as (j & Heq & _). discriminate Heq.
  - apply (NoDup_fmap_2 Case2), NoDup_seqZ.
Qed.

Lemma work_items_launched (mid m : Z) (w : work_item) :
  w ∈ work_items mid m -> launched mid m w.
Proof.
  unfold work_items. intros Hw. apply elem_of_app in Hw as [Hw|Hw];
    apply list_elem_of_fmap in Hw as (i & -> & Hi); apply elem_of_seqZ in Hi;
    cbn [launched]; lia.
Qed.

(** The order of the work items does not matter: every schedule of the
    work items of [fold_scalars] runs to completion and leaves the cells
    that [fold_scalars] leaves. *)
Theorem fold_scalars_any_schedule (cfg : build) (scalars : span)
    (m_low m_high mid : Z) (schedule : list work_item) :
  is_device_pointer scalars = true ->
  0 < mid < Z.of_nat (length (elements scalars)) ->
  Z.of_nat (length (elements scalars)) <= 2 * mid ->
  2 * mid < 2 ^ 32 ->
  schedule ≡ₚ work_items mid (Z.of_nat (length (elements scalars)) - mid) ->
  exists d d',
    fold_scalars cfg scalars m_low m_high mid = Done d
    /\ run_items m_low m_high mid (Z.of_nat (length (elements scalars)) - mid) schedule
                 (mk_dmem (elements scalars) []) = Some (tt, d')
    /\ cells d' = cells d.
Proof.
  intros Hdev Hmid Hn Hwrap Hperm.
  set (s := elements scalars) in *. set (m := Z.of_nat (length s) - mid) in *.
  assert (Hu : u32 (mid - m) = mid - m) by (apply u32_small; lia).
  destruct (run_items_cells m_low m_high mid m (work_items mid m) (mk_dmem s []))
    as (d & Hrun & _ & Hout & Hc1 & Hc2);
    try (cbn [cells]; lia); [apply work_items_NoDup|apply work_items_launched|].
  destruct (run_items_cells m_low m_high mid m schedule (mk_dmem s []))
    as (d' & Hrun' & _ & Hout' & Hc1' & Hc2');
    try (cbn [cells]; lia).
  { rewrite Hperm. apply work_items_NoDup. }
  { intros w Hw. rewrite Hperm in Hw. apply work_items_launched. exact Hw. }
  cbn [cells] in *.
  exists d, d'. split; [|split; [exact Hrun'|]].
  - destruct cfg; [rewrite fold_scalars_assertion_holds by assumption|];
      rewrite fold_scalars_launch_order by assumption;
      fold s; fold m; unfold launch; rewrite Hrun; reflexivity.
  - apply list_eq. intros j.
    destruct (decide (Case1 (Z.of_nat j) ∈ schedule)) as [Hin|Hnin].
    + assert (Hin0 : Case1 (Z.of_nat j) ∈ work_items mid m) by (rewrite <- Hperm; exact Hin).
      pose proof (work_items_launched _ _ _ Hin0) as Hj. cbn [launched] in Hj.
      destruct (lookup_Z_is_Some s (Z.of_nat j)) as [x Hx]; [lia|].
      destruct (lookup_Z_is_Some s (mid + Z.of_nat j)) as [y Hy]; [lia|].
      pose proof (Hc1 _ x y Hin0 Hx Hy) as H0. pose proof (Hc1' _ x y Hin Hx Hy) as H1.
      rewrite Nat2Z.id in H0, H1. rewrite H0, H1. reflexivity.
    + destruct (decide (Case2 (Z.of_nat j - m) ∈ schedule)) as [Hin|Hnin2].
      * assert (Hin0 : Case2 (Z.of_nat j - m) ∈ work_items mid m)
          by (rewrite <- Hperm; exact Hin).
        pose proof (work_items_launched _ _ _ Hin0) as Hj. cbn [launched] in Hj.
        rewrite Hu in Hj.
        destruct (lookup_Z_is_Some s (Z.of_nat j)) as [x Hx]; [lia|].
        pose proof (Hc2 (Z.of_nat j - m) x Hin0) as H0.
        pose proof (Hc2' (Z.of_nat j - m) x Hin) as H1.
        replace (m + (Z.of_nat j - m)) with (Z.of_nat j) in H0, H1 by lia.
        rewrite Nat2Z.id in H0, H1, Hx. rewrite H0, H1 by exact Hx. reflexivity.
      * pose proof (Hout' (Z.of_nat j) ltac:(lia) Hnin Hnin2) as H1.
        assert (Hnin0 : Case1 (Z.of_nat j) ∉ work_items mid m)
          by (rewrite <- Hperm; exact Hnin).
        assert (Hnin02 : Case2 (Z.of_nat j - m) ∉ work_items mid m)
          by (rewrite <- Hperm; exact Hnin2).
        pose proof (Hout (Z.of_nat j) ltac:(lia) Hnin0 Hnin02) as H0.
        rewrite Nat2Z.id in H0, H1. rewrite H0, H1. reflexivity.
Qed.

Lemma fold_scalars_any_schedule_witness :
  exists d d',
    fold_scalars Debug (mk_span true [1; 2; 3]) 5 7 2 = Done d
    /\ run_items 5 7 2 (3 - 2) [Case2 0; Case1 0] (mk_dmem [1; 2; 3] []) = Some (tt, d')
    /\ cells d' = cells d.
Proof.
  apply (fold_scalars_any_schedule Debug (mk_span true [1; 2; 3]) 5 7 2 [Case2 0; Case1 0]);
    cbn; first [reflexivity | lia | apply Permutation_swap].
Defined.

(** ** The checks of [fold_scalars] *)

Lemma fold_scalars_release_never_asserts (scalars : span) (m_low m_high mid : Z) :
  fold_scalars Release scalars m_low m_high mid <> AssertionFailed.
Proof.
  unfold fold_scalars, SXT_DEBUG_ASSERT, obind, launch.
  destruct (fold_scalars_case1 _ _ _ _ _) as [[[] d1]|]; [|discriminate].
  destruct (_ =? _); [discriminate|].
  destruct (fold_scalars_case2 _ _ _ _) as [[[] d2]|]; discriminate.
Qed.

Lemma fold_scalars_debug_asserts (scalars : span) (m_low m_high mid : Z) :
  (is_device_pointer scalars
   && (0 <? mid) && (mid <? Z.of_nat (length (elements scalars)))
   && (Z.of_nat (length (elements scalars)) <=? u32 (2 * mid))) = false ->
  fold_scalars Debug scalars m_low m_high mid = AssertionFailed.
Proof. intros Hc. unfold fold_scalars, SXT_DEBUG_ASSERT. rewrite Hc. reflexivity. Qed.

(** C7 as stated does not hold: in a build without debug assertions a
    span of length 1 with [mid = 1], so [mid >= n], is folded and the call
    returns. *)
Lemma fold_scalars_unchecked_in_release :
  ~ (forall (cfg : build) (scalars : span) (m_low m_high mid : Z),
       mid = 0 \/ mid >= Z.of_nat (length (elements scalars))
       \/ Z.of_nat (length (elements scalars)) > 2 * mid ->
       forall d, fold_scalars cfg scalars m_low m_high mid <> Done d).
Proof.
  intros Hclaim.
  apply (Hclaim Release (mk_span true [3]) 2 1 1 ltac:(cbn; lia)
           (mk_dmem [6] [Write 0; Read 0])).
  vm_compute. reflexivity.
Qed.

(** C7, amended. With debug assertions, [fold_scalars] stops on its one
    assertion exactly when the span is not device-resident or [mid = 0] or
    [mid >= n] or [n > 2 * mid]; without them nothing is checked and no
    assertion stops the call; and for a device-resident span with
    [0 < mid < n <= 2 * mid] the call returns in either build. ([mid] is an
    [unsigned] with [2 * mid] in range.) *)
Theorem fold_scalars_checks (scalars : span) (m_low m_high mid : Z) :
  0 <= mid < 2 ^ 31 ->
  (fold_scalars Debug scalars m_low m_high mid = AssertionFailed
   <-> (is_device_pointer scalars = false \/ mid = 0
        \/ mid >= Z.of_nat (length (elements scalars))
        \/ Z.of_nat (length (elements scalars)) > 2 * mid))
  /\ fold_scalars Release scalars m_low m_high mid <> AssertionFailed
  /\ (forall cfg,
        is_device_pointer scalars = true ->
        0 < mid < Z.of_nat (length (elements scalars)) ->
        Z.of_nat (length (elements scalars)) <= 2 * mid ->
        exists d, fold_scalars cfg scalars m_low m_high mid = Done d).
Proof.
  intros Hrange. split; [|split].
  - split.
    + intros Hfail.
      destruct (is_device_pointer scalars) eqn:Hdev; [|left; reflexivity].
      right.
      destruct (Z.eq_dec mid 0) as [?|Hz]; [left; assumption|right].
      destruct (Z_lt_le_dec mid (Z.of_nat (length (elements scalars)))) as [Hlt|?];
        [|left; lia].
      right.
      destruct (Z_le_gt_dec (Z.of_nat (length (elements scalars))) (2 * mid))
        as [Hle|?]; [|assumption].
      exfalso.
      rewrite fold_scalars_assertion_holds in Hfail by (done || lia).
      exact (fold_scalars_release_never_asserts _ _ _ _ Hfail).
    + intros Hbad. apply fold_scalars_debug_asserts.
      rewrite (u32_small (2 * mid)) by lia.
      destruct Hbad as [->|[->|[Hge|Hgt]]].
      * reflexivity.
      * rewrite Bool.andb_false_r. reflexivity.
      * destruct (Z.ltb_spec mid (Z.of_nat (length (elements scalars)))); [lia|].
        rewrite Bool.andb_false_r. reflexivity.
      * destruct (Z.leb_spec (Z.of_nat (length (elements scalars))) (2 * mid)); [lia|].
        rewrite Bool.andb_false_r. reflexivity.
  - apply fold_scalars_release_never_asserts.
  - intros cfg Hdev Hmid Hn.
    destruct (fold_scalars_run cfg scalars m_low m_high mid) as (d & Hd & _);
      try (done || lia).
    exists d. exact Hd.
Qed.

Lemma fold_scalars_checks_witness :
  (fold_scalars Debug (mk_span true [1; 2]) 5 7 1 = AssertionFailed
   <-> (true = false \/ 1 = 0 \/ 1 >= 2 \/ 2 > 2 * 1))
  /\ fold_scalars Release (mk_span true [1; 2]) 5 7 1 <> AssertionFailed
  /\ (forall cfg,
        true = true -> 0 < 1 < 2 -> 2 <= 2 * 1 ->
        exists d, fold_scalars cfg (mk_span true [1; 2]) 5 7 1 = Done d).
Proof.
  apply (fold_scalars_checks (mk_span true [1; 2]) 5 7 1). lia.
Defined.

(** The assertion of a debug build at work, and the same calls without it. *)
Example fold_scalars_debug_host_span :
  fold_scalars Debug (mk_span false [1; 2]) 5 7 1 = AssertionFailed.
Proof. reflexivity. Qed.

Example fold_scalars_release_host_span :
  fold_scalars Release (mk_span false [1; 2]) 5 7 1
  = Done (mk_dmem [19; 2] [Write 0; Read 0; Read 1; Write 0; Read 0]).
Proof. vm_compute. reflexivity. Qed.

Example fold_scalars_debug_mid_zero :
  fold_scalars Debug (mk_span true [1; 2]) 5 7 0 = AssertionFailed.
Proof. reflexivity. Qed.

(** ** Views of the workspace vectors *)

Lemma subspan_ok {A : Type} (s : list A) (offset count : nat) :
  (offset + count <= length s)%nat ->
  subspan s (Z.of_nat offset) (Z.of_nat count) = Done (take count (drop offset s)).
Proof.
  intros Hle. unfold subspan.
  destruct (Z.leb_spec 0 (Z.of_nat offset)); [|lia].
  destruct (Z.leb_spec 0 (Z.of_nat count)); [|lia].
  destruct (Z.leb_spec (Z.of_nat offset + Z.of_nat count) (Z.of_nat (length s))); [|lia].
  cbn. rewrite !Nat2Z.id. reflexivity.
Qed.

Lemma subspan_from_ok {A : Type} (s : list A) (offset : nat) :
  (offset <= length s)%nat ->
  subspan_from s (Z.of_nat offset) = Done (drop offset s).
Proof.
  intros Hle. unfold subspan_from.
  destruct (Z.leb_spec 0 (Z.of_nat offset)); [|lia].
  destruct (Z.leb_spec (Z.of_nat offset) (Z.of_nat (length s))); [|lia].
  cbn. rewrite Nat2Z.id. reflexivity.
Qed.

Lemma shrink_ok {A : Type} (s : list A) (size : nat) :
  (size <= length s)%nat -> shrink s (Z.of_nat size) = Done (take size s).
Proof.
  intros Hle. unfold shrink.
  destruct (Z.leb_spec 0 (Z.of_nat size)); [|lia].
  destruct (Z.leb_spec (Z.of_nat size) (Z.of_nat (length s))); [|lia].
  cbn. rewrite Nat2Z.id. reflexivity.
Qed.

Lemma half_of_double (mid : nat) : Z.of_nat (2 * mid) / 2 = Z.of_nat mid.
Proof. rewrite Nat2Z.inj_mul. change (Z.of_nat 2) with 2. symmetry. apply Z.div_unique_exact; lia. Qed.

(** ** [commit_to_fold] *)

Lemma commit_to_fold_partial_ok `{Curve21} (g_vector : list element_p3)
    (q_value : element_p3) (u_vector v_vector : list Z) :
  length g_vector = length u_vector ->
  gpu_driver.commit_to_fold_partial g_vector q_value u_vector v_vector
  = Done (rsto_compress
            (c21o_add (multiexponentiation g_vector u_vector)
                      (c21o_scalar_multiply (s25.inner_product u_vector v_vector) q_value))).
Proof.
  intros Hlen. unfold gpu_driver.commit_to_fold_partial.
  change 0 with (Z.of_nat 0). rewrite subspan_ok by (cbn; lia).
  cbn [obind]. rewrite drop_0, take_ge by lia. reflexivity.
Qed.

(** C1. In a round with [mid = |g_vector| / 2 >= 1], where the three
    vectors hold [2 * mid] elements, [commit_to_fold] returns, and the
    value for the L slot is the compression of
    [<a_low, g_high> + <a_low, b_high> * q], the one for the R slot the
    compression of [<a_high, g_low> + <a_high, b_low> * q]: a
    multiexponentiation over one half of the generators plus the inner
    product of two halves of the scalars times [q]; [low] is [[0, mid)] and
    [high] is [[mid, 2 * mid)]. *)
Theorem commit_to_fold_values `{Curve21} (cfg : build) (work : gpu_workspace.t)
    (mid : nat) :
  (1 <= mid)%nat ->
  length (gpu_workspace.g_vector work) = (2 * mid)%nat ->
  length (gpu_workspace.a_vector work) = (2 * mid)%nat ->
  length (gpu_workspace.b_vector work) = (2 * mid)%nat ->
  Z.of_nat (length (gpu_workspace.g_vector work)) / 2 = Z.of_nat mid
  /\ gpu_driver.commit_to_fold cfg work
     = let a_low := take mid (gpu_workspace.a_vector work) in
       let a_high := take mid (drop mid (gpu_workspace.a_vector work)) in
       let b_low := take mid (gpu_workspace.b_vector work) in
       let b_high := take mid (drop mid (gpu_workspace.b_vector work)) in
       let g_low := take mid (gpu_workspace.g_vector work) in
       let g_high := take mid (drop mid (gpu_workspace.g_vector work)) in
       let q := proof_descriptor.q_value (gpu_workspace.descriptor work) in
       Done (rsto_compress
               (c21o_add (multiexponentiation g_high a_low)
                         (c21o_scalar_multiply (s25.inner_product a_low b_high) q)),
             rsto_compress
               (c21o_add (multiexponentiation g_low a_high)
                         (c21o_scalar_multiply (s25.inner_product a_high b_low) q))).
Proof.
  intros Hmid Hg Ha Hb.
  assert (Hhalf : Z.of_nat (length (gpu_workspace.g_vector work)) / 2 = Z.of_nat mid)
    by (rewrite Hg; apply half_of_double).
  split; [exact Hhalf|].
  unfold gpu_driver.commit_to_fold. rewrite Hhalf.
  assert (Hassert : SXT_DEBUG_ASSERT cfg (0 <? Z.of_nat mid) = Done tt).
  { unfold SXT_DEBUG_ASSERT. destruct cfg; [|reflexivity].
    destruct (Z.ltb_spec 0 (Z.of_nat mid)); [reflexivity|lia]. }
  rewrite Hassert. cbn [obind].
  change 0 with (Z.of_nat 0).
  rewrite !subspan_ok, !subspan_from_ok by (cbn; lia).
  cbn [obind]. rewrite !drop_0.
  rewrite !commit_to_fold_partial_ok
    by (rewrite ?length_take, ?length_drop; lia).
  cbn [obind].
  rewrite (take_ge (drop mid (gpu_workspace.a_vector work))) by (rewrite length_drop; lia).
  rewrite (take_ge (drop mid (gpu_workspace.b_vector work))) by (rewrite length_drop; lia).
  rewrite (take_ge (drop mid (gpu_workspace.g_vector work))) by (rewrite length_drop; lia).
  reflexivity.
Qed.

(** The scenario [n = 2] on the group of integers modulo [ell]:
    [a = [1, 2]], [b = [3, 4]], [g = [1, 2]], [q = 7]. *)
Lemma commit_to_fold_values_witness :
  Z.of_nat 2 / 2 = Z.of_nat 1
  /\ @gpu_driver.commit_to_fold Zl_curve Debug
       (gpu_workspace.mk Zl_curve (proof_descriptor.mk Zl_curve [3; 4] [1; 2] 7)
          0%N [1; 2] [3; 4] [1; 2])
     = Done (30, 44).
Proof.
  exact (@commit_to_fold_values Zl_curve Debug
           (gpu_workspace.mk Zl_curve (proof_descriptor.mk Zl_curve [3; 4] [1; 2] 7)
              0%N [1; 2] [3; 4] [1; 2])
           1%nat ltac:(lia) eq_refl eq_refl eq_refl).
Defined.

Lemma commit_to_fold_release_never_asserts `{Curve21} (work : gpu_workspace.t) :
  gpu_driver.commit_to_fold Release work <> AssertionFailed.
Proof.
  unfold gpu_driver.commit_to_fold, gpu_driver.commit_to_fold_partial,
    SXT_DEBUG_ASSERT, subspan, subspan_from.
  cbn [obind].
  repeat match goal with
         | |- context [if ?c then _ else _] => destruct c; cbn [obind]
         end;
    discriminate.
Qed.

(** C8 as stated does not hold: without debug assertions a workspace with
    one element in each vector is not rejected; the call goes on to take
    the views and leaves defined behaviour at the first one that is out of
    range. *)
Lemma commit_to_fold_unchecked_in_release :
  ~ (forall (C : Curve21) (cfg : build) (work : gpu_workspace.t),
       length (gpu_workspace.g_vector work) = 1%nat ->
       gpu_driver.commit_to_fold cfg work = AssertionFailed).
Proof.
  intros Hclaim.
  specialize (Hclaim Zl_curve Release
                (gpu_workspace.mk Zl_curve (proof_descriptor.mk Zl_curve [3] [1] 7)
                   1%N [1] [3] [1])
                eq_refl).
  vm_compute in Hclaim. discriminate Hclaim.
Qed.

(** C8, amended. With debug assertions, [commit_to_fold] on a workspace
    whose [g_vector] has length 1 stops on the assertion [mid > 0], before
    anything is computed for L or R; without them the assertion never
    stops the call. *)
Theorem commit_to_fold_degenerate `{Curve21} (work : gpu_workspace.t) :
  length (gpu_workspace.g_vector work) = 1%nat ->
  gpu_driver.commit_to_fold Debug work = AssertionFailed
  /\ gpu_driver.commit_to_fold Release work <> AssertionFailed.
Proof.
  intros Hg. split; [|apply commit_to_fold_release_never_asserts].
  unfold gpu_driver.commit_to_fold. rewrite Hg. reflexivity.
Qed.

Lemma commit_to_fold_degenerate_witness :
  @gpu_driver.commit_to_fold Zl_curve Debug
    (gpu_workspace.mk Zl_curve (proof_descriptor.mk Zl_curve [3] [1] 7) 1%N [1] [3] [1])
  = AssertionFailed
  /\ @gpu_driver.commit_to_fold Zl_curve Release
       (gpu_workspace.mk Zl_curve (proof_descriptor.mk Zl_curve [3] [1] 7) 1%N [1] [3] [1])
     <> AssertionFailed.
Proof.
  apply (@commit_to_fold_degenerate Zl_curve). reflexivity.
Defined.

Example commit_to_fold_release_length_one :
  @gpu_driver.commit_to_fold Zl_curve Release
    (gpu_workspace.mk Zl_curve (proof_descriptor.mk Zl_curve [3] [1] 7) 1%N [1] [3] [1])
  = Undefined.
Proof. vm_compute. reflexivity. Qed.

(** ** [make_workspace] *)

(** C5 as stated does not hold: [a_vector] of length 1 with a descriptor of
    length 2 yields a workspace. *)
Lemma make_workspace_unchecked :
  ~ (forall (C : Curve21) (descriptor : proof_descriptor.t) (a_vector : list Z),
       length a_vector <> length (proof_descriptor.b_vector descriptor) ->
       forall work, gpu_driver.make_workspace descriptor a_vector <> Done work).
Proof.
  intros Hclaim.
  apply (Hclaim Zl_curve (proof_descriptor.mk Zl_curve [3; 4] [1; 2] 7) [1]
           ltac:(cbn; lia)
           (gpu_workspace.mk Zl_curve (proof_descriptor.mk Zl_curve [3; 4] [1; 2] 7)
              0%N [1] [3; 4] [1; 2])).
  reflexivity.
Qed.

(** C5, amended. [make_workspace] compares no lengths: for every
    descriptor and every [a_vector], of equal length or not, it returns a
    workspace for the descriptor with round index 0 whose vectors are
    [a_vector] and the descriptor's [b_vector] and [g_vector]. *)
Theorem make_workspace_copies `{Curve21} (descriptor : proof_descriptor.t)
    (a_vector : list Z) :
  exists work,
    gpu_driver.make_workspace descriptor a_vector = Done work
    /\ gpu_workspace.descriptor work = descriptor
    /\ gpu_workspace.round_index work = 0%N
    /\ gpu_workspace.a_vector work = a_vector
    /\ gpu_workspace.b_vector work = proof_descriptor.b_vector descriptor
    /\ gpu_workspace.g_vector work = proof_descriptor.g_vector descriptor.
Proof.
  eexists. split; [reflexivity|]. cbn. repeat split.
Qed.

(** ** [compute_expected_commitment] *)

(** C6. On the same descriptor, L and R vectors, challenges and [a']
    value, the device driver's [compute_expected_commitment] yields what
    the host driver's yields. *)
Theorem compute_expected_commitment_delegates `{Curve21} `{!cpu_driver}
    (descriptor : proof_descriptor.t) (l_vector r_vector : list compressed_element)
    (x_vector : list Z) (ap_value : Z) :
  gpu_driver.compute_expected_commitment descriptor l_vector r_vector x_vector ap_value
  = cpu_compute_expected_commitment descriptor l_vector r_vector x_vector ap_value.
Proof. reflexivity. Qed.

Example commit_to_fold_release_empty_a :
  @gpu_driver.commit_to_fold Zl_curve Release
    (gpu_workspace.mk Zl_curve (proof_descriptor.mk Zl_curve [] [1] 7) 0%N [] [] [1])
  = Done (0, 0).
Proof. vm_compute. reflexivity. Qed.

(** ** [fold] *)

Lemma fold_generators_ok `{Curve21} (cfg : build) (g_vector : list element_p3)
    (m_low m_high : Z) (mid : nat) :
  (1 <= mid)%nat -> length g_vector = (2 * mid)%nat ->
  fold_generators cfg g_vector (decompose_generator_fold m_low m_high)
  = Done (zip_with (fun lo hi => c21o_add (c21o_scalar_multiply m_low lo)
                                          (c21o_scalar_multiply m_high hi))
                   (take mid g_vector) (drop mid g_vector)
          ++ drop mid g_vector).
Proof.
  intros Hmid Hg. unfold fold_generators, decompose_generator_fold.
  rewrite Hg, half_of_double, Nat2Z.id. cbn [fst snd].
  destruct (Z.ltb_spec 0 (Z.of_nat mid)); [|lia].
  destruct (Z.eqb_spec (Z.of_nat (2 * mid)) (2 * Z.of_nat mid)); [|lia].
  reflexivity.
Qed.

(** One round on a workspace whose vectors hold [2 * mid] elements. *)
Lemma fold_run `{Curve21} (cfg : build) (work : gpu_workspace.t) (x : Z) (mid : nat) :
  (1 <= mid)%nat ->
  2 * Z.of_nat mid < 2 ^ 32 ->
  length (gpu_workspace.g_vector work) = (2 * mid)%nat ->
  length (gpu_workspace.a_vector work) = (2 * mid)%nat ->
  length (gpu_workspace.b_vector work) = (2 * mid)%nat ->
  exists work',
    gpu_driver.fold cfg work x = Done work'
    /\ gpu_workspace.round_index work' = (gpu_workspace.round_index work + 1)%N
    /\ gpu_workspace.descriptor work' = gpu_workspace.descriptor work
    /\ length (gpu_workspace.a_vector work') = mid
    /\ (forall (i : nat) a_lo a_hi,
          (i < mid)%nat ->
          gpu_workspace.a_vector work !! i = Some a_lo ->
          gpu_workspace.a_vector work !! (mid + i)%nat = Some a_hi ->
          gpu_workspace.a_vector work' !! i
          = Some ((x * a_lo + s25.inv x * a_hi) mod s25.ell))
    /\ ((1 < mid)%nat ->
        length (gpu_workspace.b_vector work') = mid
        /\ length (gpu_workspace.g_vector work') = mid
        /\ (forall (i : nat) b_lo b_hi,
              (i < mid)%nat ->
              gpu_workspace.b_vector work !! i = Some b_lo ->
              gpu_workspace.b_vector work !! (mid + i)%nat = Some b_hi ->
              gpu_workspace.b_vector work' !! i
              = Some ((s25.inv x * b_lo + x * b_hi) mod s25.ell))
        /\ (exists g_folded,
              fold_generators cfg (gpu_workspace.g_vector work)
                              (decompose_generator_fold (s25.inv x) x) = Done g_folded
              /\ gpu_workspace.g_vector work' = take mid g_folded)
        /\ (forall (i : nat) g_lo g_hi,
              (i < mid)%nat ->
              gpu_workspace.g_vector work !! i = Some g_lo ->
              gpu_workspace.g_vector work !! (mid + i)%nat = Some g_hi ->
              gpu_workspace.g_vector work' !! i
              = Some (c21o_add (c21o_scalar_multiply (s25.inv x) g_lo)
                               (c21o_scalar_multiply x g_hi))))
    /\ (mid = 1%nat ->
        gpu_workspace.b_vector work' = gpu_workspace.b_vector work
        /\ gpu_workspace.g_vector work' = gpu_workspace.g_vector work).
Proof.
  intros Hmid Hwrap Hg Ha Hb.
  unfold gpu_driver.fold. rewrite Hg, half_of_double.
  rewrite (u32_small (Z.of_nat mid)) by lia.
  destruct (fold_scalars_run cfg (device_span (gpu_workspace.a_vector work))
              x (s25.inv x) (Z.of_nat mid))
    as (da & Hda & Hla & Hfa & _); cbn [device_span is_device_pointer elements];
    try (reflexivity || lia).
  cbn [device_span is_device_pointer elements] in *.
  rewrite Hda. cbn [obind].
  rewrite shrink_ok by lia. cbn [obind].
  assert (Ha' : forall (i : nat) a_lo a_hi,
             (i < mid)%nat ->
             gpu_workspace.a_vector work !! i = Some a_lo ->
             gpu_workspace.a_vector work !! (mid + i)%nat = Some a_hi ->
             take mid (cells da) !! i = Some ((x * a_lo + s25.inv x * a_hi) mod s25.ell)).
  { intros i a_lo a_hi Hi Hlo Hhi. rewrite lookup_take_lt by lia.
    specialize (Hfa (Z.of_nat i) a_lo a_hi).
    rewrite <- Nat2Z.inj_add, !Nat2Z.id in Hfa. apply Hfa; [lia|exact Hlo|exact Hhi]. }
  destruct (Z.eqb_spec (Z.of_nat mid) 1) as [Hone|Hmany].
  - eexists. split; [reflexivity|]. cbn.
    split; [reflexivity|]. split; [reflexivity|].
    split; [rewrite length_take; lia|]. split; [exact Ha'|].
    split; [intros Hlt; lia|]. intros _. split; reflexivity.
  - destruct (fold_scalars_run cfg (device_span (gpu_workspace.b_vector work))
                (s25.inv x) x (Z.of_nat mid))
      as (db & Hdb & Hlb & Hfb & _); cbn [device_span is_device_pointer elements];
      try (reflexivity || lia).
    cbn [device_span is_device_pointer elements] in *.
    rewrite Hdb. cbn [obind].
    rewrite shrink_ok by lia. cbn [obind].
    rewrite (fold_generators_ok cfg _ (s25.inv x) x mid Hmid Hg). cbn [obind].
    rewrite shrink_ok
      by (rewrite length_app, length_zip_with, length_take, length_drop; lia).
    cbn [obind].
    eexists. split; [reflexivity|]. cbn.
    split; [reflexivity|]. split; [reflexivity|].
    split; [rewrite length_take; lia|]. split; [exact Ha'|].
    split; [|intros Hone; lia]. intros _.
    split; [rewrite length_take; lia|].
    split; [rewrite length_take, length_app, length_zip_with, length_take, length_drop; lia|].
    split; [|split].
    + intros i b_lo b_hi Hi Hlo Hhi. rewrite lookup_take_lt by lia.
      specialize (Hfb (Z.of_nat i) b_lo b_hi).
      rewrite <- Nat2Z.inj_add, !Nat2Z.id in Hfb. apply Hfb; [lia|exact Hlo|exact Hhi].
    + eexists. split; reflexivity.
    + intros i g_lo g_hi Hi Hlo Hhi. rewrite lookup_take_lt by lia.
      rewrite lookup_app_l by (rewrite length_zip_with, length_take, length_drop; lia).
      rewrite lookup_zip_with, lookup_take_lt, lookup_drop, Hlo, Hhi by lia.
      reflexivity.
Qed.

(** With [2^32] generators or more, [mid] is [2^31] at least and
    [fold_scalars] stops on its assertion for [a_vector]. *)
Lemma fold_debug_wraps `{Curve21} (work : gpu_workspace.t) (x : Z) :
  2 ^ 32 <= Z.of_nat (length (gpu_workspace.g_vector work)) < 2 ^ 33 ->
  gpu_driver.fold Debug work x = AssertionFailed.
Proof.
  intros Hg. unfold gpu_driver.fold. cbv zeta.
  assert (Hmid : 2 ^ 31 <= Z.of_nat (length (gpu_workspace.g_vector work)) / 2 < 2 ^ 32).
  { split; [apply Z.div_le_lower_bound; lia|apply Z.div_lt_upper_bound; lia]. }
  rewrite (u32_small (Z.of_nat (length (gpu_workspace.g_vector work)) / 2)) by lia.
  rewrite fold_scalars_debug_wraps by exact Hmid. reflexivity.
Qed.

(** C2 as stated does not hold for every workspace: with vectors of
    [2^32] elements, [mid = 2^31] and the assertion of [fold_scalars]
    computes [2u * mid] in [unsigned], which comes out as 0; with debug
    assertions [fold] stops there and returns no workspace. *)
Lemma fold_long_vectors :
  ~ (forall (cfg : build) (work : @gpu_workspace.t Zl_curve) (x : Z) (mid : nat),
       x mod s25.ell <> 0 ->
       (1 <= mid)%nat ->
       length (gpu_workspace.g_vector work) = (2 * mid)%nat ->
       length (gpu_workspace.a_vector work) = (2 * mid)%nat ->
       length (gpu_workspace.b_vector work) = (2 * mid)%nat ->
       exists work',
         gpu_driver.fold cfg work x = Done work'
         /\ gpu_workspace.round_index work'
            = (gpu_workspace.round_index work + 1)%N).
Proof.
  intros Hclaim.
  remember (replicate (Z.to_nat (2 ^ 32)) 0) as v eqn:Hv.
  assert (Hlen : length v = (2 * Z.to_nat (2 ^ 31))%nat)
    by (subst v; rewrite length_replicate; lia).
  destruct (Hclaim Debug
              (gpu_workspace.mk Zl_curve (proof_descriptor.mk Zl_curve v v 7) 0%N v v v)
              5 (Z.to_nat (2 ^ 31))) as (work' & Hrun & _);
    try (cbn [gpu_workspace.g_vector gpu_workspace.a_vector gpu_workspace.b_vector];
         first [exact Hlen | lia]).
  - rewrite Z.mod_small; [discriminate|unfold s25.ell; lia].
  - rewrite fold_debug_wraps in Hrun; [discriminate Hrun|].
    cbn [gpu_workspace.g_vector].
    change (2 ^ 32 <= Z.of_nat (@length Z v) < 2 ^ 33). lia.
Qed.

(** C2, amended. On a workspace whose vectors hold [2 * mid] elements,
    [mid = |g_vector| / 2 >= 1] and [2 * mid < 2^32], the range in which
    the [unsigned] arithmetic of [fold_scalars] is exact, [fold] with a
    challenge [x], zero or not, returns a workspace with the round index incremented by one in which
    [a_vector] is folded with the multipliers [(x, x_inv)],
    [x_inv = s25.inv x]; when [mid > 1], [b_vector] and [g_vector] are
    folded with [(x_inv, x)] as well; when [mid = 1], [b_vector] and
    [g_vector] are left as they were. *)
Theorem fold_round `{Curve21} (cfg : build) (work : gpu_workspace.t) (x : Z)
    (mid : nat) :
  (1 <= mid)%nat ->
  2 * Z.of_nat mid < 2 ^ 32 ->
  length (gpu_workspace.g_vector work) = (2 * mid)%nat ->
  length (gpu_workspace.a_vector work) = (2 * mid)%nat ->
  length (gpu_workspace.b_vector work) = (2 * mid)%nat ->
  Z.of_nat (length (gpu_workspace.g_vector work)) / 2 = Z.of_nat mid
  /\ exists work',
    gpu_driver.fold cfg work x = Done work'
    /\ gpu_workspace.round_index work' = (gpu_workspace.round_index work + 1)%N
    /\ gpu_workspace.descriptor work' = gpu_workspace.descriptor work
    /\ length (gpu_workspace.a_vector work') = mid
    /\ (forall (i : nat) a_lo a_hi,
          (i < mid)%nat ->
          gpu_workspace.a_vector work !! i = Some a_lo ->
          gpu_workspace.a_vector work !! (mid + i)%nat = Some a_hi ->
          gpu_workspace.a_vector work' !! i
          = Some ((x * a_lo + s25.inv x * a_hi) mod s25.ell))
    /\ ((1 < mid)%nat ->
        length (gpu_workspace.b_vector work') = mid
        /\ length (gpu_workspace.g_vector work') = mid
        /\ (forall (i : nat) b_lo b_hi,
              (i < mid)%nat ->
              gpu_workspace.b_vector work !! i = Some b_lo ->
              gpu_workspace.b_vector work !! (mid + i)%nat = Some b_hi ->
              gpu_workspace.b_vector work' !! i
              = Some ((s25.inv x * b_lo + x * b_hi) mod s25.ell))
        /\ (exists g_folded,
              fold_generators cfg (gpu_workspace.g_vector work)
                              (decompose_generator_fold (s25.inv x) x) = Done g_folded
              /\ gpu_workspace.g_vector work' = take mid g_folded)
        /\ (forall (i : nat) g_lo g_hi,
              (i < mid)%nat ->
              gpu_workspace.g_vector work !! i = Some g_lo ->
              gpu_workspace.g_vector work !! (mid + i)%nat = Some g_hi ->
              gpu_workspace.g_vector work' !! i
              = Some (c21o_add (c21o_scalar_multiply (s25.inv x) g_lo)
                               (c21o_scalar_multiply x g_hi))))
    /\ (mid = 1%nat ->
        gpu_workspace.b_vector work' = gpu_workspace.b_vector work
        /\ gpu_workspace.g_vector work' = gpu_workspace.g_vector work).
Proof.
  intros Hmid Hwrap Hg Ha Hb. split.
  - rewrite Hg. apply half_of_double.
  - apply fold_run; assumption.
Qed.

Lemma fold_round_witness :
  exists work',
    @gpu_driver.fold Zl_curve Debug
      (gpu_workspace.mk Zl_curve (proof_descriptor.mk Zl_curve [3; 4] [1; 2] 7)
         0%N [1; 2] [3; 4] [1; 2]) 5
    = Done work'
    /\ gpu_workspace.round_index work' = 1%N
    /\ gpu_workspace.b_vector work' = [3; 4].
Proof.
  destruct (@fold_round Zl_curve Debug
              (gpu_workspace.mk Zl_curve (proof_descriptor.mk Zl_curve [3; 4] [1; 2] 7)
                 0%N [1; 2] [3; 4] [1; 2]) 5 1%nat
              ltac:(lia) ltac:(lia) eq_refl eq_refl eq_refl)
    as (_ & work' & Hrun & Hround & _ & _ & _ & _ & Hkeep).
  exists work'. split; [exact Hrun|]. split; [exact Hround|].
  exact (proj1 (Hkeep eq_refl)).
Defined.

(** The scenario [n = 2], [x = 5]: [a' = 5 * a_0 + 5^-1 * a_1], and only
    [a_vector] changes. *)
Example fold_n2_x5 :
  match @gpu_driver.fold Zl_curve Debug
          (gpu_workspace.mk Zl_curve (proof_descriptor.mk Zl_curve [3; 4] [1; 2] 7)
             0%N [1; 2] [3; 4] [1; 2]) 5
  with
  | Done work' =>
      (gpu_workspace.round_index work', gpu_workspace.a_vector work',
       gpu_workspace.b_vector work', gpu_workspace.g_vector work')
      = (1%N, [(5 * 1 + s25.inv 5 * 2) mod s25.ell], [3; 4], [1; 2])
  | _ => False
  end
  /\ s25.mul 5 (s25.inv 5) = 1.
Proof. vm_compute. split; reflexivity. Qed.

(** A round with [mid = 2]: all three vectors are folded and halved. *)
Example fold_n4_x1 :
  match @gpu_driver.fold Zl_curve Release
          (gpu_workspace.mk Zl_curve
             (proof_descriptor.mk Zl_curve [1; 2; 3; 4] [1; 2; 3; 4] 7)
             0%N [1; 2; 3; 4] [1; 2; 3; 4] [1; 2; 3; 4]) 1
  with
  | Done work' =>
      (gpu_workspace.round_index work', gpu_workspace.a_vector work',
       gpu_workspace.b_vector work', gpu_workspace.g_vector work')
      = (1%N, [4; 6], [4; 6], [4; 6])
  | _ => False
  end.
Proof. vm_compute. reflexivity. Qed.

(** ** Lengths over the rounds *)

Lemma fold_rounds_lengths `{Curve21} (cfg : build) (x_vector : list Z) :
  forall (work : gpu_workspace.t) (j : nat),
    (1 <= j <= 31)%nat ->
    (length x_vector <= j)%nat ->
    length (gpu_workspace.a_vector work) = (2 ^ j)%nat ->
    length (gpu_workspace.b_vector work) = (2 ^ j)%nat ->
    length (gpu_workspace.g_vector work) = (2 ^ j)%nat ->
    exists work',
      fold_rounds cfg work x_vector = Done work'
      /\ gpu_workspace.round_index work'
         = (gpu_workspace.round_index work + N.of_nat (length x_vector))%N
      /\ length (gpu_workspace.a_vector work') = (2 ^ (j - length x_vector))%nat
      /\ ((length x_vector < j)%nat ->
          length (gpu_workspace.b_vector work') = (2 ^ (j - length x_vector))%nat
          /\ length (gpu_workspace.g_vector work') = (2 ^ (j - length x_vector))%nat)
      /\ (length x_vector = j ->
          length (gpu_workspace.b_vector work') = 2%nat
          /\ length (gpu_workspace.g_vector work') = 2%nat).
Proof.
  induction x_vector as [|x x_vector IH]; intros work j Hj Hr Ha Hb Hg.
  - exists work. cbn [fold_rounds length].
    rewrite N.add_0_r, Nat.sub_0_r.
    split; [reflexivity|]. split; [reflexivity|]. split; [exact Ha|].
    split; [intros _; split; assumption|]. intros Hz. lia.
  - cbn [length] in *.
    destruct j as [|j']; [lia|].
    assert (Hdouble : (2 ^ S j' = 2 * 2 ^ j')%nat) by apply Nat.pow_succ_r'.
    assert (Hpos : (1 <= 2 ^ j')%nat)
      by (pose proof (Nat.pow_nonzero 2 j'); lia).
    assert (Hwrap : 2 * Z.of_nat (2 ^ j') < 2 ^ 32).
    { rewrite Nat2Z.inj_pow. change (Z.of_nat 2) with 2.
      assert (2 ^ Z.of_nat j' <= 2 ^ 30) by (apply Z.pow_le_mono_r; lia).
      lia. }
    destruct (fold_run cfg work x (2 ^ j')%nat)
      as (work1 & Hrun & Hround & _ & Ha1 & _ & Hmany & Hone); try lia.
    cbn [fold_rounds]. rewrite Hrun. cbn [obind].
    destruct j' as [|j''].
    + destruct x_vector as [|? ?]; [|cbn [length] in Hr; lia].
      destruct (Hone eq_refl) as [Hb1 Hg1].
      exists work1. cbn [fold_rounds length].
      split; [reflexivity|]. split; [rewrite Hround; reflexivity|].
      split; [exact Ha1|]. split; [intros Hlt; lia|].
      intros _. rewrite Hb1, Hg1, Hb, Hg. split; reflexivity.
    + assert (Hgt : (1 < 2 ^ S j'')%nat).
      { rewrite Nat.pow_succ_r'. pose proof (Nat.pow_nonzero 2 j''). lia. }
      destruct (Hmany Hgt) as (Hb1 & Hg1 & _).
      destruct (IH work1 (S j'')) as (work' & Hrun' & Hround' & Ha' & Hlt' & Heq');
        try (assumption || lia).
      exists work'. split; [exact Hrun'|].
      split; [rewrite Hround', Hround; lia|].
      replace (S (S j'') - S (length x_vector))%nat
        with (S j'' - length x_vector)%nat by lia.
      split; [exact Ha'|].
      split; [intros Hlt; apply Hlt'; lia | intros Heq; apply Heq'; lia].
Qed.

(** C4 as stated does not hold: with [n = 2], after the one round
    [a_vector] has length 1, but [b_vector] and [g_vector] still have
    length 2. *)
Lemma fold_final_round_keeps_b_and_g :
  ~ (forall (C : Curve21) (cfg : build) (k : nat) (descriptor : proof_descriptor.t)
            (a_vector x_vector : list Z) (work work' : gpu_workspace.t),
       length a_vector = (2 ^ k)%nat ->
       length (proof_descriptor.b_vector descriptor) = (2 ^ k)%nat ->
       length (proof_descriptor.g_vector descriptor) = (2 ^ k)%nat ->
       gpu_driver.make_workspace descriptor a_vector = Done work ->
       fold_rounds cfg work x_vector = Done work' ->
       length (gpu_workspace.a_vector work') = (2 ^ k / 2 ^ length x_vector)%nat
       /\ length (gpu_workspace.b_vector work') = (2 ^ k / 2 ^ length x_vector)%nat
       /\ length (gpu_workspace.g_vector work') = (2 ^ k / 2 ^ length x_vector)%nat).
Proof.
  intros Hclaim.
  pose (work := gpu_workspace.mk Zl_curve (proof_descriptor.mk Zl_curve [3; 4] [1; 2] 7)
                  0%N [1; 2] [3; 4] [1; 2]).
  destruct (@fold_run Zl_curve Debug work 5 1%nat)
    as (work' & Hrun & _ & _ & _ & _ & _ & Hkeep); try (reflexivity || lia).
  destruct (Hkeep eq_refl) as [Hb _].
  destruct (Hclaim Zl_curve Debug 1%nat
              (proof_descriptor.mk Zl_curve [3; 4] [1; 2] 7) [1; 2] [5] work work'
              eq_refl eq_refl eq_refl eq_refl)
    as (_ & Hlen & _).
  - cbn [fold_rounds]. rewrite Hrun. reflexivity.
  - rewrite Hb in Hlen. discriminate Hlen.
Qed.

(** C4, amended. From a workspace made for vectors of length [n = 2^k],
    [1 <= k <= 31], the first [r <= k] rounds all return; after them the round
    index is [r] and [|a_vector| = n / 2^r]; [|b_vector|] and [|g_vector|]
    are [n / 2^r] as well as long as [r < k], and are 2 after the last
    round [r = k], which folds and truncates [a_vector] only. *)
Theorem fold_rounds_halve `{Curve21} (cfg : build) (k : nat)
    (descriptor : proof_descriptor.t) (a_vector x_vector : list Z) :
  (1 <= k <= 31)%nat ->
  (length x_vector <= k)%nat ->
  length a_vector = (2 ^ k)%nat ->
  length (proof_descriptor.b_vector descriptor) = (2 ^ k)%nat ->
  length (proof_descriptor.g_vector descriptor) = (2 ^ k)%nat ->
  exists work work',
    gpu_driver.make_workspace descriptor a_vector = Done work
    /\ fold_rounds cfg work x_vector = Done work'
    /\ gpu_workspace.round_index work' = N.of_nat (length x_vector)
    /\ length (gpu_workspace.a_vector work') = (2 ^ k / 2 ^ length x_vector)%nat
    /\ ((length x_vector < k)%nat ->
        length (gpu_workspace.b_vector work') = (2 ^ k / 2 ^ length x_vector)%nat
        /\ length (gpu_workspace.g_vector work') = (2 ^ k / 2 ^ length x_vector)%nat)
    /\ (length x_vector = k ->
        length (gpu_workspace.a_vector work') = 1%nat
        /\ length (gpu_workspace.b_vector work') = 2%nat
        /\ length (gpu_workspace.g_vector work') = 2%nat).
Proof.
  intros Hk Hr Ha Hb Hg.
  eexists. 
  destruct (fold_rounds_lengths cfg x_vector
              (gpu_workspace.mk _ descriptor 0%N a_vector
                 (proof_descriptor.b_vector descriptor)
                 (proof_descriptor.g_vector descriptor)) k)
    as (work' & Hrun & Hround & Ha' & Hlt & Heq); try assumption.
  exists work'. split; [reflexivity|]. split; [exact Hrun|].
  rewrite <- Nat.pow_sub_r by lia.
  split; [rewrite Hround; cbn; lia|]. split; [exact Ha'|].
  split; [exact Hlt|]. intros Hlast. split; [|apply Heq; exact Hlast].
  rewrite Ha', Hlast, Nat.sub_diag. reflexivity.
Qed.

Lemma fold_rounds_halve_witness :
  exists work work',
    @gpu_driver.make_workspace Zl_curve
      (proof_descriptor.mk Zl_curve [1; 2; 3; 4] [1; 2; 3; 4] 7) [1; 2; 3; 4] = Done work
    /\ fold_rounds Debug work [2; 3] = Done work'
    /\ gpu_workspace.round_index work' = 2%N
    /\ length (gpu_workspace.a_vector work') = 1%nat.
Proof.
  destruct (@fold_rounds_halve Zl_curve Debug 2%nat
              (proof_descriptor.mk Zl_curve [1; 2; 3; 4] [1; 2; 3; 4] 7)
              [1; 2; 3; 4] [2; 3]
              ltac:(lia) ltac:(cbn; lia) eq_refl eq_refl eq_refl)
    as (work & work' & Hmake & Hrun & Hround & Ha & _).
  exists work, work'. split; [exact Hmake|]. split; [exact Hrun|].
  split; [exact Hround|exact Ha].
Defined.

Example fold_rounds_n4 :
  match @fold_rounds Zl_curve Debug
          (gpu_workspace.mk Zl_curve
             (proof_descriptor.mk Zl_curve [1; 2; 3; 4] [1; 2; 3; 4] 7)
             0%N [1; 2; 3; 4] [1; 2; 3; 4] [1; 2; 3; 4]) [1; 1]
  with
  | Done work' =>
      (gpu_workspace.round_index work', gpu_workspace.a_vector work',
       gpu_workspace.b_vector work', gpu_workspace.g_vector work')
      = (2%N, [10], [4; 6], [4; 6])
  | _ => False
  end.
Proof. vm_compute. reflexivity. Qed.

(** ** [compute_commitments_cpu] *)

Section commitments.
Context `{Curve21}.

(** [a_i * g_i] for row [i] of a sequence: the [element_nbytes] bytes of
    element [i], zeros up to 32 bytes, read as a little-endian integer,
    times the base element for [i]. *)
Local Abbreviation term seq i :=
  (c21o_scalar_multiply
     (sqcnv.le_value
        (take (Z.to_nat (sqcnv.element_nbytes seq))
              (drop (Z.to_nat (i * sqcnv.element_nbytes seq)) (sqcnv.data seq))
         ++ replicate (Z.to_nat (32 - sqcnv.element_nbytes seq)) x00))
     (sqcb_compute_base_element i)).

Lemma fill_data_ok (seq : sqcnv.exponent_sequence) (row_i : Z) :
  sqcnv.readable seq -> 0 <= row_i < sqcnv.n seq ->
  sqcnv.fill_data (sqcnv.data seq) (u64 (row_i * sqcnv.element_nbytes seq))
                  (sqcnv.element_nbytes seq)
  = Done (take (Z.to_nat (sqcnv.element_nbytes seq))
               (drop (Z.to_nat (row_i * sqcnv.element_nbytes seq)) (sqcnv.data seq))
          ++ replicate (Z.to_nat (32 - sqcnv.element_nbytes seq)) x00).
Proof.
  intros (Hnb & Hn & Hdata) Hrow.
  assert (Hoff : row_i * sqcnv.element_nbytes seq + sqcnv.element_nbytes seq
                 <= sqcnv.n seq * sqcnv.element_nbytes seq) by nia.
  rewrite u64_small by nia. unfold sqcnv.fill_data.
  destruct (Z.leb_spec (sqcnv.element_nbytes seq) 32); [|lia].
  destruct (Z.leb_spec (row_i * sqcnv.element_nbytes seq + sqcnv.element_nbytes seq)
                       (Z.of_nat (length (sqcnv.data seq)))); [|lia].
  reflexivity.
Qed.

Lemma rows_from (seq : sqcnv.exponent_sequence) (count : nat) :
  forall (row_i : Z) (p_k : element_p3),
    sqcnv.readable seq -> 1 <= row_i -> row_i + Z.of_nat count <= sqcnv.n seq ->
    sqcnv.rows seq count row_i p_k
    = Done (foldl c21o_add p_k ((fun i => term seq i) <$> seqZ row_i (Z.of_nat count))).
Proof.
  induction count as [|count IH]; intros row_i p_k Hseq Hrow Hend.
  - reflexivity.
  - cbn [sqcnv.rows]. rewrite fill_data_ok by (assumption || lia). cbn [obind].
    destruct (Z.eqb_spec row_i 0); [lia|].
    rewrite (u64_small (row_i + 1)) by (destruct Hseq as (_ & Hn & _); lia).
    rewrite IH by (assumption || lia).
    rewrite (seqZ_cons row_i (Z.of_nat (S count))) by lia.
    replace (Z.pred (Z.of_nat (S count))) with (Z.of_nat count) by lia.
    reflexivity.
Qed.

Lemma rows_all (seq : sqcnv.exponent_sequence) (stack : element_p3) :
  sqcnv.readable seq -> 1 <= sqcnv.n seq ->
  sqcnv.rows seq (Z.to_nat (sqcnv.n seq)) 0 stack
  = Done (foldl c21o_add (term seq 0)
                ((fun i => term seq i) <$> seqZ 1 (sqcnv.n seq - 1))).
Proof.
  intros Hseq Hn.
  replace (Z.to_nat (sqcnv.n seq)) with (S (Z.to_nat (sqcnv.n seq - 1))) by lia.
  cbn [sqcnv.rows]. rewrite fill_data_ok by (assumption || lia). cbn [obind].
  change (0 =? 0) with true. cbn match.
  rewrite (u64_small (0 + 1)) by lia.
  rewrite rows_from by (assumption || lia).
  rewrite Z2Nat.id by lia. reflexivity.
Qed.

Lemma rows_returns (seq : sqcnv.exponent_sequence) (stack : element_p3) :
  sqcnv.readable seq ->
  exists p_k, sqcnv.rows seq (Z.to_nat (sqcnv.n seq)) 0 stack = Done p_k.
Proof.
  intros Hseq. destruct (Z_lt_le_dec (sqcnv.n seq) 1) as [Hz|Hn].
  - replace (Z.to_nat (sqcnv.n seq)) with 0%nat
      by (destruct Hseq as (_ & Hn & _); lia).
    exists stack. reflexivity.
  - eexists. apply rows_all; assumption.
Qed.

Lemma columns_from (value_sequences : list sqcnv.exponent_sequence) (count : nat) :
  forall (k : nat) (commitments : list commitment) (stack : element_p3),
    (forall seq, seq ∈ value_sequences -> sqcnv.readable seq) ->
    (k + count <= length value_sequences)%nat ->
    (k + count <= length commitments)%nat ->
    exists out,
      sqcnv.columns stack value_sequences count (Z.of_nat k) commitments = Done out
      /\ length out = length commitments
      /\ (forall j, (j < k)%nat -> out !! j = commitments !! j)
      /\ (forall j seq,
            (k <= j < k + count)%nat ->
            value_sequences !! j = Some seq -> 1 <= sqcnv.n seq ->
            out !! j
            = Some (c21rs_to_bytes
                      (foldl c21o_add (term seq 0)
                             ((fun i => term seq i) <$> seqZ 1 (sqcnv.n seq - 1))))).
Proof.
  induction count as [|count IH]; intros k commitments stack Hall Hvs Hcs.
  - exists commitments. split; [reflexivity|]. split; [reflexivity|].
    split; [reflexivity|]. intros j seq Hj. lia.
  - cbn [sqcnv.columns]. rewrite Nat2Z.id.
    destruct (lookup_lt_is_Some_2 value_sequences k) as [seq_k Hk]; [lia|].
    rewrite Hk.
    assert (Hread : sqcnv.readable seq_k)
      by (apply Hall; apply list_elem_of_lookup; exists k; exact Hk).
    destruct (rows_returns seq_k stack Hread) as [p_k Hp]. rewrite Hp. cbn [obind].
    replace (Z.of_nat k + 1) with (Z.of_nat (S k)) by lia.
    destruct (IH (S k) (<[k := c21rs_to_bytes p_k]> commitments) p_k)
      as (out & Hrun & Hlen & Hbelow & Hin);
      try (assumption || rewrite ?length_insert; lia).
    exists out. split; [exact Hrun|].
    split; [rewrite Hlen; apply length_insert|]. split.
    + intros j Hj. rewrite Hbelow by lia. apply list_lookup_insert_ne. lia.
    + intros j seq Hj Hseq Hn.
      destruct (Nat.eq_dec j k) as [->|Hne].
      * rewrite Hbelow by lia. rewrite list_lookup_insert_eq by lia.
        rewrite Hk in Hseq. injection Hseq as <-.
        rewrite rows_all in Hp by assumption. injection Hp as <-. reflexivity.
      * apply Hin; [lia|exact Hseq|exact Hn].
Qed.

(** C10. For equally sized [commitments] and [value_sequences] whose
    sequences are readable, [compute_commitments_cpu] returns, and for
    every sequence [k] with at least one element and an element size
    between 1 and 32 bytes, [commitments[k]] is the byte encoding of the
    sum over the rows [i] of [a_i * g_i], added up from row 0 on; [a_i]
    is the [element_nbytes] bytes of element [i] followed by zeros up to
    32 bytes and read as a little-endian integer, [g_i] the base element
    for [i]. *)
Theorem compute_commitments_cpu_sums (cfg : build) (stack : element_p3)
    (commitments : list commitment)
    (value_sequences : list sqcnv.exponent_sequence) :
  length commitments = length value_sequences ->
  (forall seq, seq ∈ value_sequences -> sqcnv.readable seq) ->
  exists out,
    sqcnv.compute_commitments_cpu cfg stack commitments value_sequences = Done out
    /\ length out = length commitments
    /\ (forall (k : nat) seq,
          value_sequences !! k = Some seq ->
          1 <= sqcnv.n seq ->
          1 <= sqcnv.element_nbytes seq <= 32 ->
          out !! k
          = Some (c21rs_to_bytes
                    (foldl c21o_add (term seq 0)
                           ((fun i => term seq i) <$> seqZ 1 (sqcnv.n seq - 1))))).
Proof.
  intros Hlen Hall. unfold sqcnv.compute_commitments_cpu.
  assert (Hassert : cassert cfg
                      (Z.of_nat (length commitments)
                       =? Z.of_nat (length value_sequences)) = Done tt).
  { rewrite Hlen, Z.eqb_refl. destruct cfg; reflexivity. }
  rewrite Hassert. cbn [obind].
  destruct (columns_from value_sequences (length commitments) 0 commitments stack)
    as (out & Hrun & Hout & _ & Hin); try (assumption || lia).
  exists out. split; [exact Hrun|]. split; [exact Hout|].
  intros k seq Hk Hn _. apply Hin; [|exact Hk|exact Hn].
  apply lookup_lt_Some in Hk. lia.
Qed.

End commitments.

(** Zeros padded at the end do not change the little-endian value. *)
Lemma le_value_padded (bytes : list byte) (k : nat) :
  sqcnv.le_value (bytes ++ replicate k x00) = sqcnv.le_value bytes.
Proof.
  induction bytes as [|b bytes IH].
  - induction k as [|k IHk]; [reflexivity|].
    cbn [app replicate sqcnv.le_value] in *. rewrite IHk. reflexivity.
  - cbn [app sqcnv.le_value]. rewrite IH. reflexivity.
Qed.

(** Two sequences on the group of integers modulo [ell], where the base
    element for [i] is [i + 1]: one-byte elements [1, 2] and one two-byte
    element [3]. *)
Lemma compute_commitments_cpu_sums_witness :
  exists out,
    @sqcnv.compute_commitments_cpu Zl_curve Debug 0 [0; 0]
      [sqcnv.mk_exponent_sequence 1 2 [x01; x02];
       sqcnv.mk_exponent_sequence 2 1 [x03; x00]]
    = Done out
    /\ length out = 2%nat.
Proof.
  destruct (@compute_commitments_cpu_sums Zl_curve Debug 0 [0; 0]
              [sqcnv.mk_exponent_sequence 1 2 [x01; x02];
               sqcnv.mk_exponent_sequence 2 1 [x03; x00]] eq_refl)
    as (out & Hrun & Hlen & _).
  - intros seq Hseq.
    apply elem_of_cons in Hseq as [->|Hseq]; [unfold sqcnv.readable; cbn; lia|].
    apply elem_of_cons in Hseq as [->|Hseq]; [unfold sqcnv.readable; cbn; lia|].
    apply elem_of_nil in Hseq. destruct Hseq.
  - exists out. split; [exact Hrun|exact Hlen].
Defined.

Example compute_commitments_cpu_two_sequences :
  @sqcnv.compute_commitments_cpu Zl_curve Debug 0 [0; 0]
    [sqcnv.mk_exponent_sequence 1 2 [x01; x02];
     sqcnv.mk_exponent_sequence 2 1 [x03; x00]]
  = Done [5; 3].
Proof. vm_compute. reflexivity. Qed.

(** A sequence without elements leaves the accumulator as it was found. *)
Example compute_commitments_cpu_empty_sequence :
  @sqcnv.compute_commitments_cpu Zl_curve Release 42 [0]
    [sqcnv.mk_exponent_sequence 1 0 []]
  = Done [42].
Proof. vm_compute. reflexivity. Qed.

(** After a column with rows, a sequence without elements repeats the
    commitment of that column. *)
Example compute_commitments_cpu_empty_sequences :
  @sqcnv.compute_commitments_cpu Zl_curve Release 42 [0; 0; 0]
    [sqcnv.mk_exponent_sequence 1 0 [];
     sqcnv.mk_exponent_sequence 1 2 [x01; x02];
     sqcnv.mk_exponent_sequence 1 0 []]
  = Done [42; 5; 5].
Proof. vm_compute. reflexivity. Qed.

(** * Further properties *)

(** ** [fold_scalars]: what the assertion guarantees *)

(** X2. The assertion of [fold_scalars] is enough for memory safety: in a
    build with debug assertions, for every span and every [unsigned]
    [mid], the call either stops on the assertion or returns; no access
    of the two kernels leaves the span. The product [2u * mid] of the
    assertion wraps for [mid >= 2^31], and then the assertion fails. *)
Theorem fold_scalars_debug_safe (scalars : span) (m_low m_high mid : Z) :
  0 <= mid < 2 ^ 32 ->
  fold_scalars Debug scalars m_low m_high mid = AssertionFailed
  \/ exists d,
       fold_scalars Debug scalars m_low m_high mid = Done d
       /\ length (cells d) = length (elements scalars)
       /\ 2 * mid < 2 ^ 32.
Proof.
  intros Hmid.
  destruct (is_device_pointer scalars
            && (0 <? mid) && (mid <? Z.of_nat (length (elements scalars)))
            && (Z.of_nat (length (elements scalars)) <=? u32 (2 * mid))) eqn:Hassert.
  - right.
    apply andb_prop in Hassert as [Hassert Hle].
    apply andb_prop in Hassert as [Hassert Hlt].
    apply andb_prop in Hassert as [Hdev Hpos].
    apply Z.ltb_lt in Hpos, Hlt. apply Z.leb_le in Hle.
    assert (Hwrap : 2 * mid < 2 ^ 32).
    { destruct (Z_lt_le_dec (2 * mid) (2 ^ 32)) as [?|Hbig]; [assumption|].
      assert (Hu : u32 (2 * mid) = 2 * mid - 2 ^ 32)
        by (unfold u32; symmetry; apply (Z.mod_unique _ _ 1); lia).
      lia. }
    rewrite u32_small in Hle by lia.
    destruct (fold_scalars_run Debug scalars m_low m_high mid Hdev)
      as (d & Hrun & Hlen & _); try lia.
    exists d. split; [exact Hrun|]. split; [exact Hlen|exact Hwrap].
  - left. apply fold_scalars_debug_asserts. exact Hassert.
Qed.

Lemma fold_scalars_debug_safe_witness :
  fold_scalars Debug (mk_span true [1; 2; 3]) 5 7 2 = AssertionFailed
  \/ exists d,
       fold_scalars Debug (mk_span true [1; 2; 3]) 5 7 2 = Done d
       /\ length (cells d) = 3%nat
       /\ 2 * 2 < 2 ^ 32.
Proof.
  apply (fold_scalars_debug_safe (mk_span true [1; 2; 3]) 5 7 2). lia.
Defined.

(** ** [fold_scalars] without a high half *)

(** Without debug assertions and with [mid = n], case 1 has no work item
    and case 2 scales the whole span. *)
Lemma fold_scalars_release_scales (scalars : span) (m_low m_high : Z) :
  0 < Z.of_nat (length (elements scalars)) < 2 ^ 32 ->
  exists d,
    fold_scalars Release scalars m_low m_high (Z.of_nat (length (elements scalars)))
    = Done d
    /\ length (cells d) = length (elements scalars)
    /\ (forall (i : nat) x,
          elements scalars !! i = Some x ->
          cells d !! i = Some ((m_low * x) mod s25.ell)).
Proof.
  intros Hn. unfold fold_scalars, SXT_DEBUG_ASSERT, obind.
  set (s := elements scalars) in *. set (n := Z.of_nat (length s)) in *.
  rewrite Z.sub_diag. change (u64 0) with 0. change (u32 0) with 0.
  unfold launch, fold_scalars_case1, for_each. change (Z.to_nat 0) with 0%nat.
  cbn [for_each_from]. unfold kret. cbv beta iota.
  destruct (Z.eqb_spec 0 n) as [?|_]; [lia|].
  unfold fold_scalars_case2, for_each. rewrite Z.sub_0_r, (u32_small n) by lia.
  destruct (fold_scalars_case2_items m_low 0 n (Z.to_nat n) 0 (mk_dmem s []))
    as (d & t & Hrun & Hlen & _ & Hin & _); try (cbn [cells]; fold n; lia).
  rewrite Hrun. exists d. split; [reflexivity|]. split; [exact Hlen|].
  intros i x Hx. specialize (Hin (Z.of_nat i) x).
  rewrite Nat2Z.id in Hin. apply Hin; [|exact Hx].
  apply lookup_lt_Some in Hx. cbn [cells] in *. lia.
Qed.

(** X3. In a build without debug assertions, [fold_scalars] with
    [mid = n] (no high half, outside its contract) is not rejected: it
    returns after multiplying every element by [m_low]; [m_high] has no
    effect. In a build with debug assertions the same call stops on the
    assertion. *)
Theorem fold_scalars_without_high_half (scalars : span) (m_low m_high : Z) :
  0 < Z.of_nat (length (elements scalars)) < 2 ^ 32 ->
  fold_scalars Debug scalars m_low m_high (Z.of_nat (length (elements scalars)))
  = AssertionFailed
  /\ exists d,
       fold_scalars Release scalars m_low m_high (Z.of_nat (length (elements scalars)))
       = Done d
       /\ length (cells d) = length (elements scalars)
       /\ (forall (i : nat) x,
             elements scalars !! i = Some x ->
             cells d !! i = Some ((m_low * x) mod s25.ell)).
Proof.
  intros Hn. split; [|apply fold_scalars_release_scales; exact Hn].
  apply fold_scalars_debug_asserts.
  rewrite Z.ltb_irrefl, Bool.andb_false_r. reflexivity.
Qed.

Lemma fold_scalars_without_high_half_witness :
  fold_scalars Debug (mk_span true [1; 2]) 5 7 (Z.of_nat 2) = AssertionFailed
  /\ exists d,
       fold_scalars Release (mk_span true [1; 2]) 5 7 (Z.of_nat 2) = Done d
       /\ length (cells d) = 2%nat
       /\ (forall (i : nat) x,
             [1; 2] !! i = Some x -> cells d !! i = Some ((5 * x) mod s25.ell)).
Proof.
  apply (fold_scalars_without_high_half (mk_span true [1; 2]) 5 7). cbn. lia.
Defined.

(** ** The inner product under a fold *)

Lemma ell_nonzero : s25.ell <> 0.
Proof. unfold s25.ell. lia. Qed.

Lemma mod_ell_shift (p q k : Z) : p = q + s25.ell * k -> p mod s25.ell = q mod s25.ell.
Proof. intros ->. rewrite Z.mul_comm. apply Z_mod_plus_full. Qed.

Lemma inner_product_reduced (u v : list Z) :
  s25.inner_product u v mod s25.ell = s25.inner_product u v.
Proof.
  destruct u as [|a u], v as [|b v]; try reflexivity.
  cbn [s25.inner_product]. unfold s25.muladd. apply Z.mod_mod, ell_nonzero.
Qed.

Lemma inner_product_app (u1 u2 v1 v2 : list Z) :
  length u1 = length v1 ->
  s25.inner_product (u1 ++ u2) (v1 ++ v2)
  = (s25.inner_product u1 v1 + s25.inner_product u2 v2) mod s25.ell.
Proof.
  revert v1. induction u1 as [|a u1 IH]; intros [|b v1] Hlen; try discriminate Hlen.
  - cbn [app s25.inner_product]. rewrite Z.add_0_l, inner_product_reduced. reflexivity.
  - cbn [app s25.inner_product]. rewrite IH by (cbn in Hlen; lia).
    unfold s25.muladd. Z.push_pull_mod. f_equal. ring.
Qed.

(** Folding [u] with [(x, y)] and [v] with [(y, x)], where [x * y = 1] in
    the field: the inner product of the folded vectors. *)
Lemma inner_product_folded (x y : Z) (u_lo : list Z) :
  (x * y) mod s25.ell = 1 ->
  forall u_hi v_lo v_hi : list Z,
    length u_hi = length u_lo -> length v_lo = length u_lo -> length v_hi = length u_lo ->
    s25.inner_product
      (zip_with (fun lo hi => (x * lo + y * hi) mod s25.ell) u_lo u_hi)
      (zip_with (fun lo hi => (y * lo + x * hi) mod s25.ell) v_lo v_hi)
    = (s25.inner_product u_lo v_lo + s25.inner_product u_hi v_hi
       + x * x * s25.inner_product u_lo v_hi
       + y * y * s25.inner_product u_hi v_lo) mod s25.ell.
Proof.
  intros Hxy.
  pose proof (Z.div_mod (x * y) s25.ell ell_nonzero) as Hk. rewrite Hxy in Hk.
  induction u_lo as [|a u_lo IH]; intros [|a' u_hi] [|b v_lo] [|b' v_hi] H1 H2 H3;
    try discriminate.
  - cbn [zip_with s25.inner_product]. rewrite !Z.mul_0_r. reflexivity.
  - cbn [zip_with s25.inner_product].
    rewrite IH by (cbn in *; lia). unfold s25.muladd.
    Z.push_pull_mod.
    apply (mod_ell_shift _ _ ((x * y / s25.ell) * (a * b + a' * b'))).
    set (k := x * y / s25.ell) in *.
    replace (s25.ell * (k * (a * b + a' * b')))
      with ((x * y - 1) * (a * b + a' * b')) by (rewrite Hk; ring).
    ring.
Qed.

Lemma folded_as_zip (m_low m_high : Z) (s s' : list Z) (mid : nat) :
  length s = (2 * mid)%nat -> length s' = mid ->
  (forall (i : nat) lo hi,
     (i < mid)%nat -> s !! i = Some lo -> s !! (mid + i)%nat = Some hi ->
     s' !! i = Some ((m_low * lo + m_high * hi) mod s25.ell)) ->
  s' = zip_with (fun lo hi => (m_low * lo + m_high * hi) mod s25.ell)
                (take mid s) (drop mid s).
Proof.
  intros Hs Hs' Hfold. apply list_eq. intros i.
  destruct (decide (i < mid)%nat) as [Hi|Hi].
  - destruct (lookup_lt_is_Some_2 s i) as [lo Hlo]; [lia|].
    destruct (lookup_lt_is_Some_2 s (mid + i)) as [hi Hhi]; [lia|].
    rewrite (Hfold i lo hi Hi Hlo Hhi).
    rewrite lookup_zip_with, lookup_take_lt, lookup_drop, Hlo, Hhi by lia.
    reflexivity.
  - rewrite (lookup_ge_None_2 s') by lia.
    symmetry. apply lookup_ge_None_2.
    rewrite length_zip_with, length_take, length_drop. lia.
Qed.

(** X4. The relation that makes a round sound, on the scalars: for a
    challenge [x] with [x * inv x = 1] and a round with [mid > 1] on
    vectors of [2 * mid] elements, [2 * mid < 2^32], [fold] returns and
    the inner product of the folded [a_vector] and [b_vector] is the inner
    product before the round plus [x^2] times [<a_low, b_high>] (the scalar
    in L of [commit_to_fold]) plus [inv x ^2] times [<a_high, b_low>] (the
    scalar in R), in the scalar field. *)
Theorem fold_inner_product `{Curve21} (cfg : build) (work : gpu_workspace.t) (x : Z)
    (mid : nat) :
  (1 < mid)%nat ->
  2 * Z.of_nat mid < 2 ^ 32 ->
  length (gpu_workspace.g_vector work) = (2 * mid)%nat ->
  length (gpu_workspace.a_vector work) = (2 * mid)%nat ->
  length (gpu_workspace.b_vector work) = (2 * mid)%nat ->
  s25.mul x (s25.inv x) = 1 ->
  exists work',
    gpu_driver.fold cfg work x = Done work'
    /\ s25.inner_product (gpu_workspace.a_vector work') (gpu_workspace.b_vector work')
       = (s25.inner_product (gpu_workspace.a_vector work) (gpu_workspace.b_vector work)
          + x * x * s25.inner_product (take mid (gpu_workspace.a_vector work))
                                      (drop mid (gpu_workspace.b_vector work))
          + s25.inv x * s25.inv x
            * s25.inner_product (drop mid (gpu_workspace.a_vector work))
                                (take mid (gpu_workspace.b_vector work)))
         mod s25.ell.
Proof.
  intros Hmid Hwrap Hg Ha Hb Hinv.
  destruct (fold_run cfg work x mid) as (work' & Hrun & _ & _ & Hla & Hfa & Hmany & _);
    try (assumption || lia).
  destruct (Hmany Hmid) as (Hlb & _ & Hfb & _).
  exists work'. split; [exact Hrun|].
  rewrite (folded_as_zip x (s25.inv x) _ _ mid Ha Hla Hfa).
  rewrite (folded_as_zip (s25.inv x) x _ _ mid Hb Hlb Hfb).
  rewrite (inner_product_folded x (s25.inv x)) by
    (first [exact Hinv | rewrite ?length_take, ?length_drop; lia]).
  rewrite <- (take_drop mid (gpu_workspace.a_vector work)) at 5.
  rewrite <- (take_drop mid (gpu_workspace.b_vector work)) at 5.
  rewrite inner_product_app by (rewrite !length_take; lia).
  Z.push_pull_mod. first [reflexivity | f_equal; ring].
Qed.

Lemma fold_inner_product_witness :
  exists work',
    @gpu_driver.fold Zl_curve Debug
      (gpu_workspace.mk Zl_curve (proof_descriptor.mk Zl_curve [5; 6; 7; 8] [1; 2; 3; 4] 7)
         0%N [1; 2; 3; 4] [5; 6; 7; 8] [1; 2; 3; 4]) 5
    = Done work'
    /\ s25.inner_product (gpu_workspace.a_vector work') (gpu_workspace.b_vector work')
       = (s25.inner_product [1; 2; 3; 4] [5; 6; 7; 8]
          + 5 * 5 * s25.inner_product [1; 2] [7; 8]
          + s25.inv 5 * s25.inv 5 * s25.inner_product [3; 4] [5; 6]) mod s25.ell.
Proof.
  apply (@fold_inner_product Zl_curve Debug
           (gpu_workspace.mk Zl_curve
              (proof_descriptor.mk Zl_curve [5; 6; 7; 8] [1; 2; 3; 4] 7)
              0%N [1; 2; 3; 4] [5; 6; 7; 8] [1; 2; 3; 4]) 5 2%nat);
    [lia | lia | reflexivity | reflexivity | reflexivity | vm_compute; reflexivity].
Defined.

(** ** [fold] on vectors shorter than the generators *)

(** X5. [fold] takes [mid] from [g_vector] alone, so [a_vector] and
    [b_vector] may hold fewer than [2 * mid] elements: with
    [|g_vector| = 2 * mid], [mid > 1], [2 * mid < 2^32] and
    [|a_vector| = |b_vector| = n], [mid < n <= 2 * mid], the round returns
    with all three vectors of length [mid]; the first [n - mid] entries of [a_vector] and [b_vector]
    are folded with their partners in the high half, the entries from
    [n - mid] on, which have no partner, are only multiplied by the low
    multiplier ([x] for [a_vector], [inv x] for [b_vector]). *)
Theorem fold_shorter_vectors `{Curve21} (cfg : build) (work : gpu_workspace.t) (x : Z)
    (mid n : nat) :
  (1 < mid)%nat ->
  (mid < n <= 2 * mid)%nat ->
  2 * Z.of_nat mid < 2 ^ 32 ->
  length (gpu_workspace.g_vector work) = (2 * mid)%nat ->
  length (gpu_workspace.a_vector work) = n ->
  length (gpu_workspace.b_vector work) = n ->
  exists work',
    gpu_driver.fold cfg work x = Done work'
    /\ gpu_workspace.round_index work' = (gpu_workspace.round_index work + 1)%N
    /\ length (gpu_workspace.a_vector work') = mid
    /\ length (gpu_workspace.b_vector work') = mid
    /\ length (gpu_workspace.g_vector work') = mid
    /\ (forall (i : nat) a_lo a_hi,
          (i < n - mid)%nat ->
          gpu_workspace.a_vector work !! i = Some a_lo ->
          gpu_workspace.a_vector work !! (mid + i)%nat = Some a_hi ->
          gpu_workspace.a_vector work' !! i
          = Some ((x * a_lo + s25.inv x * a_hi) mod s25.ell))
    /\ (forall (i : nat) a_lo,
          (n - mid <= i < mid)%nat ->
          gpu_workspace.a_vector work !! i = Some a_lo ->
          gpu_workspace.a_vector work' !! i = Some ((x * a_lo) mod s25.ell))
    /\ (forall (i : nat) b_lo b_hi,
          (i < n - mid)%nat ->
          gpu_workspace.b_vector work !! i = Some b_lo ->
          gpu_workspace.b_vector work !! (mid + i)%nat = Some b_hi ->
          gpu_workspace.b_vector work' !! i
          = Some ((s25.inv x * b_lo + x * b_hi) mod s25.ell))
    /\ (forall (i : nat) b_lo,
          (n - mid <= i < mid)%nat ->
          gpu_workspace.b_vector work !! i = Some b_lo ->
          gpu_workspace.b_vector work' !! i = Some ((s25.inv x * b_lo) mod s25.ell)).
Proof.
  intros Hmid Hn Hwrap Hg Ha Hb.
  unfold gpu_driver.fold. rewrite Hg, half_of_double.
  rewrite (u32_small (Z.of_nat mid)) by lia.
  destruct (fold_scalars_run cfg (device_span (gpu_workspace.a_vector work))
              x (s25.inv x) (Z.of_nat mid))
    as (da & Hda & Hla & Hfa & Hta & _); cbn [device_span is_device_pointer elements];
    try (reflexivity || lia).
  destruct (fold_scalars_run cfg (device_span (gpu_workspace.b_vector work))
              (s25.inv x) x (Z.of_nat mid))
    as (db & Hdb & Hlb & Hfb & Htb & _); cbn [device_span is_device_pointer elements];
    try (reflexivity || lia).
  cbn [device_span is_device_pointer elements] in *.
  rewrite Hda. cbn [obind]. rewrite shrink_ok by lia. cbn [obind].
  destruct (Z.eqb_spec (Z.of_nat mid) 1) as [Hone|_]; [lia|].
  rewrite Hdb. cbn [obind]. rewrite shrink_ok by lia. cbn [obind].
  rewrite (fold_generators_ok cfg _ (s25.inv x) x mid) by (assumption || lia).
  cbn [obind].
  rewrite shrink_ok
    by (rewrite length_app, length_zip_with, length_take, length_drop; lia).
  cbn [obind].
  eexists. split; [reflexivity|]. cbn.
  split; [reflexivity|].
  split; [rewrite length_take; lia|].
  split; [rewrite length_take; lia|].
  split; [rewrite length_take, length_app, length_zip_with, length_take, length_drop; lia|].
  split; [|split; [|split]].
  - intros i a_lo a_hi Hi Hlo Hhi. rewrite lookup_take_lt by lia.
    specialize (Hfa (Z.of_nat i) a_lo a_hi).
    rewrite <- Nat2Z.inj_add, !Nat2Z.id in Hfa. apply Hfa; [lia|exact Hlo|exact Hhi].
  - intros i a_lo Hi Hlo. rewrite lookup_take_lt by lia.
    specialize (Hta (Z.of_nat i) a_lo). rewrite Nat2Z.id in Hta.
    apply Hta; [lia|exact Hlo].
  - intros i b_lo b_hi Hi Hlo Hhi. rewrite lookup_take_lt by lia.
    specialize (Hfb (Z.of_nat i) b_lo b_hi).
    rewrite <- Nat2Z.inj_add, !Nat2Z.id in Hfb. apply Hfb; [lia|exact Hlo|exact Hhi].
  - intros i b_lo Hi Hlo. rewrite lookup_take_lt by lia.
    specialize (Htb (Z.of_nat i) b_lo). rewrite Nat2Z.id in Htb.
    apply Htb; [lia|exact Hlo].
Qed.

Lemma fold_shorter_vectors_witness :
  exists work',
    @gpu_driver.fold Zl_curve Debug
      (gpu_workspace.mk Zl_curve (proof_descriptor.mk Zl_curve [5; 6; 7] [1; 2; 3; 4] 7)
         0%N [1; 2; 3] [5; 6; 7] [1; 2; 3; 4]) 1
    = Done work'
    /\ gpu_workspace.round_index work' = 1%N
    /\ length (gpu_workspace.a_vector work') = 2%nat
    /\ length (gpu_workspace.b_vector work') = 2%nat
    /\ length (gpu_workspace.g_vector work') = 2%nat.
Proof.
  destruct (@fold_shorter_vectors Zl_curve Debug
              (gpu_workspace.mk Zl_curve
                 (proof_descriptor.mk Zl_curve [5; 6; 7] [1; 2; 3; 4] 7)
                 0%N [1; 2; 3] [5; 6; 7] [1; 2; 3; 4]) 1 2%nat 3%nat
              ltac:(lia) ltac:(lia) ltac:(lia) eq_refl eq_refl eq_refl)
    as (work' & Hrun & Hround & Ha & Hb & Hg & _).
  exists work'. repeat (split; [assumption|]). assumption.
Defined.

Example fold_shorter_vectors_n3 :
  match @gpu_driver.fold Zl_curve Debug
          (gpu_workspace.mk Zl_curve
             (proof_descriptor.mk Zl_curve [5; 6; 7] [1; 2; 3; 4] 7)
             0%N [1; 2; 3] [5; 6; 7] [1; 2; 3; 4]) 1
  with
  | Done work' =>
      (gpu_workspace.a_vector work', gpu_workspace.b_vector work',
       gpu_workspace.g_vector work')
      = ([4; 2], [12; 6], [4; 6])
  | _ => False
  end.
Proof. vm_compute. reflexivity. Qed.

(** ** After the last round *)

Lemma fold_rounds_app `{Curve21} (cfg : build) (x_vector y_vector : list Z) :
  forall work : gpu_workspace.t,
    fold_rounds cfg work (x_vector ++ y_vector)
    = obind (fold_rounds cfg work x_vector) (fun work' => fold_rounds cfg work' y_vector).
Proof.
  induction x_vector as [|x x_vector IH]; intros work; [reflexivity|].
  cbn [app fold_rounds].
  destruct (gpu_driver.fold cfg work x) as [work1| |]; cbn [obind]; [apply IH|reflexivity..].
Qed.

Lemma fold_debug_finished `{Curve21} (work : gpu_workspace.t) (x : Z) :
  length (gpu_workspace.g_vector work) = 2%nat ->
  length (gpu_workspace.a_vector work) = 1%nat ->
  gpu_driver.fold Debug work x = AssertionFailed.
Proof.
  intros Hg Ha. unfold gpu_driver.fold. rewrite Hg.
  change (Z.of_nat 2 / 2) with 1. change (u32 1) with 1.
  rewrite fold_scalars_debug_asserts; [reflexivity|].
  cbn [device_span elements is_device_pointer]. rewrite Ha. reflexivity.
Qed.

Lemma fold_release_finished `{Curve21} (work : gpu_workspace.t) (x : Z) :
  length (gpu_workspace.g_vector work) = 2%nat ->
  length (gpu_workspace.a_vector work) = 1%nat ->
  exists work',
    gpu_driver.fold Release work x = Done work'
    /\ gpu_workspace.round_index work' = (gpu_workspace.round_index work + 1)%N
    /\ length (gpu_workspace.a_vector work') = 1%nat
    /\ (forall a_0, gpu_workspace.a_vector work !! 0%nat = Some a_0 ->
                    gpu_workspace.a_vector work' !! 0%nat = Some ((x * a_0) mod s25.ell))
    /\ gpu_workspace.b_vector work' = gpu_workspace.b_vector work
    /\ gpu_workspace.g_vector work' = gpu_workspace.g_vector work.
Proof.
  intros Hg Ha. unfold gpu_driver.fold. rewrite Hg.
  change (Z.of_nat 2 / 2) with 1. change (u32 1) with 1.
  destruct (fold_scalars_release_scales (device_span (gpu_workspace.a_vector work))
              x (s25.inv x))
    as (d & Hrun & Hlen & Hval); cbn [device_span elements] in *; [rewrite Ha; lia|].
  rewrite Ha in Hrun. change (Z.of_nat 1) with 1 in Hrun. rewrite Hrun. cbn [obind].
  change 1 with (Z.of_nat 1) at 1. rewrite shrink_ok by lia. cbn [obind].
  change (1 =? 1) with true. cbv iota.
  eexists. split; [reflexivity|]. cbn.
  split; [reflexivity|]. split; [rewrite length_take; lia|].
  split; [|split; reflexivity].
  intros a_0 Ha0. rewrite lookup_take_lt by lia. apply Hval. exact Ha0.
Qed.

(** X6. Nothing in [fold] knows that the proof is finished. After the
    [k] rounds of a proof of length [n = 2^k], one more [fold] is stopped
    by the assertion of [fold_scalars] in a build with debug assertions;
    without them it returns, having counted one more round and multiplied
    the single element of [a_vector] by the challenge. *)
Theorem fold_one_round_too_many `{Curve21} (k : nat) (descriptor : proof_descriptor.t)
    (a_vector x_vector : list Z) (x : Z) :
  (1 <= k <= 31)%nat ->
  length x_vector = k ->
  length a_vector = (2 ^ k)%nat ->
  length (proof_descriptor.b_vector descriptor) = (2 ^ k)%nat ->
  length (proof_descriptor.g_vector descriptor) = (2 ^ k)%nat ->
  exists work,
    gpu_driver.make_workspace descriptor a_vector = Done work
    /\ fold_rounds Debug work (x_vector ++ [x]) = AssertionFailed
    /\ exists work',
         fold_rounds Release work (x_vector ++ [x]) = Done work'
         /\ gpu_workspace.round_index work' = N.of_nat (k + 1)
         /\ length (gpu_workspace.a_vector work') = 1%nat.
Proof.
  intros Hk Hr Ha Hb Hg.
  eexists. split; [reflexivity|].
  set (work := gpu_workspace.mk _ _ _ _ _ _).
  rewrite !fold_rounds_app. split.
  - destruct (fold_rounds_lengths Debug x_vector work k)
      as (work1 & Hrun & _ & Ha1 & _ & Hlast); try (assumption || lia).
    destruct (Hlast Hr) as [_ Hg1].
    rewrite Hrun. cbn [obind fold_rounds].
    rewrite fold_debug_finished; [reflexivity|exact Hg1|].
    rewrite Ha1, Hr, Nat.sub_diag. reflexivity.
  - destruct (fold_rounds_lengths Release x_vector work k)
      as (work1 & Hrun & Hround & Ha1 & _ & Hlast); try (assumption || lia).
    destruct (Hlast Hr) as [_ Hg1].
    destruct (fold_release_finished work1 x Hg1) as (work' & Hrun' & Hround' & Ha' & _).
    { rewrite Ha1, Hr, Nat.sub_diag. reflexivity. }
    exists work'. rewrite Hrun. cbn [obind fold_rounds]. rewrite Hrun'. cbn [obind].
    split; [reflexivity|]. split; [|exact Ha'].
    rewrite Hround', Hround, Hr. subst work. cbn. lia.
Qed.

Lemma fold_one_round_too_many_witness :
  exists work,
    @gpu_driver.make_workspace Zl_curve
      (proof_descriptor.mk Zl_curve [3; 4] [1; 2] 7) [1; 2] = Done work
    /\ fold_rounds Debug work ([5] ++ [3]) = AssertionFailed
    /\ exists work',
         fold_rounds Release work ([5] ++ [3]) = Done work'
         /\ gpu_workspace.round_index work' = N.of_nat (1 + 1)
         /\ length (gpu_workspace.a_vector work') = 1%nat.
Proof.
  apply (@fold_one_round_too_many Zl_curve 1%nat
           (proof_descriptor.mk Zl_curve [3; 4] [1; 2] 7) [1; 2] [5] 3);
    first [lia | reflexivity].
Defined.

(** ** More on [compute_commitments_cpu] *)

Section more_commitments.
Context `{Curve21}.



(** Entries of [commitments] inside the range of the loop do not reach
    the result. *)
Lemma columns_overwrite (value_sequences : list sqcnv.exponent_sequence) (count : nat) :
  forall (k : nat) (commitments commitments' : list commitment) (stack : element_p3),
    (k + count <= length commitments)%nat ->
    (k + count <= length commitments')%nat ->
    (forall j, (j < k \/ k + count <= j)%nat -> commitments !! j = commitments' !! j) ->
    sqcnv.columns stack value_sequences count (Z.of_nat k) commitments
    = sqcnv.columns stack value_sequences count (Z.of_nat k) commitments'.
Proof.
  induction count as [|count IH]; intros k commitments commitments' stack Hc Hc' Hsame.
  - cbn [sqcnv.columns]. f_equal. apply list_eq. intros j. apply Hsame. lia.
  - cbn [sqcnv.columns]. rewrite Nat2Z.id.
    destruct (value_sequences !! k) as [seq_k|]; [|reflexivity].
    destruct (sqcnv.rows _ _ _ _) as [p| |]; cbn [obind]; try reflexivity.
    replace (Z.of_nat k + 1) with (Z.of_nat (S k)) by lia.
    apply IH; try (rewrite length_insert; lia).
    intros j Hj. destruct (Nat.eq_dec j k) as [->|Hne].
    + rewrite !list_lookup_insert_eq by lia. reflexivity.
    + rewrite !list_lookup_insert_ne by lia. apply Hsame. lia.
Qed.


(** X9. Every entry of [commitments] is overwritten: for equally sized
    spans the result does not depend on what [commitments] held before
    the call. *)
Theorem compute_commitments_cpu_overwrites (cfg : build) (stack : element_p3)
    (commitments commitments' : list commitment)
    (value_sequences : list sqcnv.exponent_sequence) :
  length commitments = length value_sequences ->
  length commitments' = length value_sequences ->
  (forall seq, seq ∈ value_sequences -> sqcnv.readable seq) ->
  exists out,
    sqcnv.compute_commitments_cpu cfg stack commitments value_sequences = Done out
    /\ sqcnv.compute_commitments_cpu cfg stack commitments' value_sequences = Done out.
Proof.
  intros Hlen Hlen' Hall. unfold sqcnv.compute_commitments_cpu, cassert.
  assert (Hassert : forall c : list commitment,
             length c = length value_sequences ->
             SXT_DEBUG_ASSERT cfg
               (Z.of_nat (length c) =? Z.of_nat (length value_sequences)) = Done tt).
  { intros c Hc. rewrite Hc, Z.eqb_refl. destruct cfg; reflexivity. }
  rewrite !Hassert by assumption. cbn [obind].
  destruct (columns_from value_sequences (length commitments) 0 commitments stack)
    as (out & Hrun & _); try (assumption || lia).
  change (Z.of_nat 0) with 0 in Hrun.
  exists out. split; [exact Hrun|]. rewrite <- Hrun, Hlen', <- Hlen. symmetry.
  apply (columns_overwrite value_sequences (length commitments) 0); try lia.
  intros j Hj. rewrite !lookup_ge_None_2 by lia. reflexivity.
Qed.

(** The inner loop sees a sequence only through the values of its
    elements. *)
Lemma rows_same_values (seq seq' : sqcnv.exponent_sequence) (count : nat) :
  forall (row_i : Z) (p_k : element_p3),
    sqcnv.readable seq -> sqcnv.readable seq' ->
    sqcnv.n seq' = sqcnv.n seq ->
    0 <= row_i -> row_i + Z.of_nat count <= sqcnv.n seq ->
    (forall i, 0 <= i < sqcnv.n seq ->
       sqcnv.le_value (take (Z.to_nat (sqcnv.element_nbytes seq))
                            (drop (Z.to_nat (i * sqcnv.element_nbytes seq))
                                  (sqcnv.data seq)))
       = sqcnv.le_value (take (Z.to_nat (sqcnv.element_nbytes seq'))
                              (drop (Z.to_nat (i * sqcnv.element_nbytes seq'))
                                    (sqcnv.data seq')))) ->
    sqcnv.rows seq count row_i p_k = sqcnv.rows seq' count row_i p_k.
Proof.
  induction count as [|count IH]; intros row_i p_k Hseq Hseq' Hn Hrow Hend Hval;
    [reflexivity|].
  cbn [sqcnv.rows].
  rewrite (fill_data_ok seq), (fill_data_ok seq') by (assumption || lia).
  cbn [obind]. rewrite !le_value_padded, (Hval row_i) by lia.
  rewrite (u64_small (row_i + 1)) by (destruct Hseq as (_ & Hb & _); lia).
  apply IH; try (assumption || lia).
Qed.

(** X10. A commitment depends on the values of the elements, not on how
    many bytes hold them: two calls whose sequences [k] have the same
    number of elements, at least one, and, element by element, the same
    little-endian value (say, one-byte elements and the same numbers in
    four bytes each) write the same [commitments[k]]. *)
Theorem compute_commitments_cpu_element_size (cfg : build) (stack : element_p3)
    (commitments commitments' : list commitment)
    (value_sequences value_sequences' : list sqcnv.exponent_sequence)
    (k : nat) (seq seq' : sqcnv.exponent_sequence) :
  length commitments = length value_sequences ->
  length commitments' = length value_sequences' ->
  (forall s, s ∈ value_sequences -> sqcnv.readable s) ->
  (forall s, s ∈ value_sequences' -> sqcnv.readable s) ->
  value_sequences !! k = Some seq ->
  value_sequences' !! k = Some seq' ->
  1 <= sqcnv.n seq ->
  sqcnv.n seq' = sqcnv.n seq ->
  (forall i, 0 <= i < sqcnv.n seq ->
     sqcnv.le_value (take (Z.to_nat (sqcnv.element_nbytes seq))
                          (drop (Z.to_nat (i * sqcnv.element_nbytes seq))
                                (sqcnv.data seq)))
     = sqcnv.le_value (take (Z.to_nat (sqcnv.element_nbytes seq'))
                            (drop (Z.to_nat (i * sqcnv.element_nbytes seq'))
                                  (sqcnv.data seq')))) ->
  exists out out',
    sqcnv.compute_commitments_cpu cfg stack commitments value_sequences = Done out
    /\ sqcnv.compute_commitments_cpu cfg stack commitments' value_sequences' = Done out'
    /\ out !! k = out' !! k.
Proof.
  intros Hlen Hlen' Hall Hall' Hk Hk' Hrows Hn Hval.
  unfold sqcnv.compute_commitments_cpu, cassert.
  assert (Hassert : forall (c : list commitment) (vs : list sqcnv.exponent_sequence),
             length c = length vs ->
             SXT_DEBUG_ASSERT cfg (Z.of_nat (length c) =? Z.of_nat (length vs)) = Done tt).
  { intros c vs Hc. rewrite Hc, Z.eqb_refl. destruct cfg; reflexivity. }
  rewrite !Hassert by assumption. cbn [obind].
  destruct (columns_from value_sequences (length commitments) 0 commitments stack)
    as (out & Hrun & _ & _ & Hin); try (assumption || lia).
  destruct (columns_from value_sequences' (length commitments') 0 commitments' stack)
    as (out' & Hrun' & _ & _ & Hin'); try (assumption || lia).
  exists out, out'. split; [exact Hrun|]. split; [exact Hrun'|].
  assert (Hread : sqcnv.readable seq)
    by (apply Hall; apply list_elem_of_lookup; exists k; exact Hk).
  assert (Hread' : sqcnv.readable seq')
    by (apply Hall'; apply list_elem_of_lookup; exists k; exact Hk').
  assert (Hsum : sqcnv.rows seq (Z.to_nat (sqcnv.n seq)) 0 stack
                 = sqcnv.rows seq' (Z.to_nat (sqcnv.n seq')) 0 stack).
  { rewrite Hn. apply rows_same_values; try (assumption || lia). }
  rewrite !rows_all in Hsum by (assumption || lia). injection Hsum as Hsum.
  apply lookup_lt_Some in Hk as Hlt. apply lookup_lt_Some in Hk' as Hlt'.
  rewrite (Hin k seq), (Hin' k seq'), Hsum by (assumption || lia).
  reflexivity.
Qed.

End more_commitments.

Section commitments_sizes.
Context `{Curve21}.

Lemma columns_out_of_sequences (value_sequences : list sqcnv.exponent_sequence)
    (count : nat) :
  forall (k : nat) (commitments : list commitment) (stack : element_p3),
    (forall seq, seq ∈ value_sequences -> sqcnv.readable seq) ->
    (k <= length value_sequences < k + count)%nat ->
    sqcnv.columns stack value_sequences count (Z.of_nat k) commitments = Undefined.
Proof.
  induction count as [|count IH]; intros k commitments stack Hall Hk; [lia|].
  cbn [sqcnv.columns]. rewrite Nat2Z.id.
  destruct (value_sequences !! k) as [seq_k|] eqn:Hseq; [|reflexivity].
  assert (Hread : sqcnv.readable seq_k)
    by (apply Hall; apply list_elem_of_lookup; exists k; exact Hseq).
  destruct (rows_returns seq_k stack Hread) as [p Hp]. rewrite Hp. cbn [obind].
  replace (Z.of_nat k + 1) with (Z.of_nat (S k)) by lia.
  apply IH; [exact Hall|]. apply lookup_lt_Some in Hseq. lia.
Qed.

Lemma columns_only_reads_its_range
    (value_sequences value_sequences' : list sqcnv.exponent_sequence) (count : nat) :
  forall (k : nat) (commitments : list commitment) (stack : element_p3),
    (forall j, (k <= j < k + count)%nat -> value_sequences !! j = value_sequences' !! j) ->
    sqcnv.columns stack value_sequences count (Z.of_nat k) commitments
    = sqcnv.columns stack value_sequences' count (Z.of_nat k) commitments.
Proof.
  induction count as [|count IH]; intros k commitments stack Hsame; [reflexivity|].
  cbn [sqcnv.columns]. rewrite Nat2Z.id, <- (Hsame k) by lia.
  destruct (value_sequences !! k) as [seq_k|]; [|reflexivity].
  destruct (sqcnv.rows _ _ _ _) as [p| |]; cbn [obind]; try reflexivity.
  replace (Z.of_nat k + 1) with (Z.of_nat (S k)) by lia.
  apply IH. intros j Hj. apply Hsame. lia.
Qed.

(** X11. The sizes of the two spans are compared by the [assert] only.
    With the assertion compiled in, spans of different sizes stop the
    call. Without it the loop runs over [commitments]: with fewer
    sequences than commitments it reads [value_sequences] past its end,
    with more it returns and the sequences beyond
    [commitments.size()] are ignored. *)
Theorem compute_commitments_cpu_sizes (stack : element_p3)
    (commitments : list commitment)
    (value_sequences : list sqcnv.exponent_sequence) :
  length commitments <> length value_sequences ->
  (forall seq, seq ∈ value_sequences -> sqcnv.readable seq) ->
  sqcnv.compute_commitments_cpu Debug stack commitments value_sequences = AssertionFailed
  /\ ((length value_sequences < length commitments)%nat ->
      sqcnv.compute_commitments_cpu Release stack commitments value_sequences = Undefined)
  /\ ((length commitments < length value_sequences)%nat ->
      exists out,
        sqcnv.compute_commitments_cpu Release stack commitments value_sequences = Done out
        /\ length out = length commitments
        /\ sqcnv.compute_commitments_cpu Release stack commitments
             (take (length commitments) value_sequences) = Done out).
Proof.
  intros Hne Hall. unfold sqcnv.compute_commitments_cpu, cassert, SXT_DEBUG_ASSERT.
  cbn [obind]. split; [|split].
  - destruct (Z.eqb_spec (Z.of_nat (length commitments))
                         (Z.of_nat (length value_sequences))); [lia|reflexivity].
  - intros Hlt. apply (columns_out_of_sequences value_sequences _ 0); [exact Hall|lia].
  - intros Hlt.
    destruct (columns_from value_sequences (length commitments) 0 commitments stack)
      as (out & Hrun & Hlen & _); try (assumption || lia).
    change (Z.of_nat 0) with 0 in Hrun.
    exists out. split; [exact Hrun|]. split; [exact Hlen|].
    rewrite <- Hrun. symmetry.
    apply (columns_only_reads_its_range value_sequences _ _ 0).
    intros j Hj. rewrite lookup_take_lt by lia. reflexivity.
Qed.

End commitments_sizes.


Lemma compute_commitments_cpu_overwrites_witness :
  exists out,
    @sqcnv.compute_commitments_cpu Zl_curve Debug 0 [7]
      [sqcnv.mk_exponent_sequence 1 2 [x01; x02]] = Done out
    /\ @sqcnv.compute_commitments_cpu Zl_curve Debug 0 [9]
         [sqcnv.mk_exponent_sequence 1 2 [x01; x02]] = Done out.
Proof.
  apply (@compute_commitments_cpu_overwrites Zl_curve Debug 0 [7] [9]
           [sqcnv.mk_exponent_sequence 1 2 [x01; x02]] eq_refl eq_refl).
  intros seq Hseq.
  apply elem_of_cons in Hseq as [->|Hseq]; [unfold sqcnv.readable; cbn; lia|].
  apply elem_of_nil in Hseq. destruct Hseq.
Defined.

(** The numbers 1 and 2 in one byte each and in two bytes each. *)
Lemma compute_commitments_cpu_element_size_witness :
  exists out out',
    @sqcnv.compute_commitments_cpu Zl_curve Debug 0 [0]
      [sqcnv.mk_exponent_sequence 1 2 [x01; x02]] = Done out
    /\ @sqcnv.compute_commitments_cpu Zl_curve Debug 0 [0]
         [sqcnv.mk_exponent_sequence 2 2 [x01; x00; x02; x00]] = Done out'
    /\ out !! 0%nat = out' !! 0%nat.
Proof.
  apply (@compute_commitments_cpu_element_size Zl_curve Debug 0 [0] [0]
           [sqcnv.mk_exponent_sequence 1 2 [x01; x02]]
           [sqcnv.mk_exponent_sequence 2 2 [x01; x00; x02; x00]]
           0%nat
           (sqcnv.mk_exponent_sequence 1 2 [x01; x02])
           (sqcnv.mk_exponent_sequence 2 2 [x01; x00; x02; x00])
           eq_refl eq_refl).
  - intros seq Hseq.
    apply elem_of_cons in Hseq as [->|Hseq]; [unfold sqcnv.readable; cbn; lia|].
    apply elem_of_nil in Hseq. destruct Hseq.
  - intros seq Hseq.
    apply elem_of_cons in Hseq as [->|Hseq]; [unfold sqcnv.readable; cbn; lia|].
    apply elem_of_nil in Hseq. destruct Hseq.
  - reflexivity.
  - reflexivity.
  - cbn. lia.
  - reflexivity.
  - cbn [sqcnv.n sqcnv.element_nbytes sqcnv.data]. intros i Hi.
    assert (Hcases : i = 0 \/ i = 1) by lia.
    destruct Hcases as [->| ->]; reflexivity.
Defined.

Lemma compute_commitments_cpu_sizes_witness :
  @sqcnv.compute_commitments_cpu Zl_curve Debug 0 [0]
    [sqcnv.mk_exponent_sequence 1 1 [x01]; sqcnv.mk_exponent_sequence 1 1 [x02]]
  = AssertionFailed
  /\ exists out,
       @sqcnv.compute_commitments_cpu Zl_curve Release 0 [0]
         [sqcnv.mk_exponent_sequence 1 1 [x01]; sqcnv.mk_exponent_sequence 1 1 [x02]]
       = Done out
       /\ length out = 1%nat.
Proof.
  destruct (@compute_commitments_cpu_sizes Zl_curve 0 [0]
              [sqcnv.mk_exponent_sequence 1 1 [x01]; sqcnv.mk_exponent_sequence 1 1 [x02]])
    as (Hdebug & _ & Hmore).
  - cbn. lia.
  - intros seq Hseq.
    apply elem_of_cons in Hseq as [->|Hseq]; [unfold sqcnv.readable; cbn; lia|].
    apply elem_of_cons in Hseq as [->|Hseq]; [unfold sqcnv.readable; cbn; lia|].
    apply elem_of_nil in Hseq. destruct Hseq.
  - split; [exact Hdebug|].
    destruct (Hmore ltac:(cbn; lia)) as (out & Hrun & Hlen & _).
    exists out. split; [exact Hrun|exact Hlen].
Defined.

(** ** [commit_to_fold] on vectors shorter than the generators *)

Lemma commit_to_fold_partial_returns `{Curve21} (g_vector : list element_p3)
    (q_value : element_p3) (u_vector v_vector : list Z) :
  (length u_vector <= length g_vector)%nat ->
  gpu_driver.commit_to_fold_partial g_vector q_value u_vector v_vector
  = Done (rsto_compress
            (c21o_add (multiexponentiation (take (length u_vector) g_vector) u_vector)
                      (c21o_scalar_multiply (s25.inner_product u_vector v_vector) q_value))).
Proof.
  intros Hlen. unfold gpu_driver.commit_to_fold_partial.
  change 0 with (Z.of_nat 0). rewrite subspan_ok by (cbn; lia).
  cbn [obind]. rewrite drop_0. reflexivity.
Qed.

(** X12. [commit_to_fold_partial] cuts the generators to the length of
    its scalars, so [commit_to_fold] also serves [a_vector] and
    [b_vector] of [n] elements with [mid < n <= 2 * mid = |g_vector|]: L is
    built from all of [g_high] and [a_low = a[0..mid)]; R is built from
    [a_high = a[mid..n)] and only the first [n - mid] generators of
    [g_low]. *)
Theorem commit_to_fold_shorter_vectors `{Curve21} (cfg : build)
    (work : gpu_workspace.t) (mid n : nat) :
  (1 <= mid)%nat ->
  (mid < n <= 2 * mid)%nat ->
  length (gpu_workspace.g_vector work) = (2 * mid)%nat ->
  length (gpu_workspace.a_vector work) = n ->
  length (gpu_workspace.b_vector work) = n ->
  gpu_driver.commit_to_fold cfg work
  = let a_low := take mid (gpu_workspace.a_vector work) in
    let a_high := drop mid (gpu_workspace.a_vector work) in
    let b_low := take mid (gpu_workspace.b_vector work) in
    let b_high := drop mid (gpu_workspace.b_vector work) in
    let q := proof_descriptor.q_value (gpu_workspace.descriptor work) in
    Done (rsto_compress
            (c21o_add (multiexponentiation (drop mid (gpu_workspace.g_vector work)) a_low)
                      (c21o_scalar_multiply (s25.inner_product a_low b_high) q)),
          rsto_compress
            (c21o_add (multiexponentiation
                         (take (n - mid) (gpu_workspace.g_vector work)) a_high)
                      (c21o_scalar_multiply (s25.inner_product a_high b_low) q))).
Proof.
  intros Hmid Hn Hg Ha Hb.
  unfold gpu_driver.commit_to_fold. rewrite Hg, half_of_double.
  assert (Hassert : SXT_DEBUG_ASSERT cfg (0 <? Z.of_nat mid) = Done tt).
  { unfold SXT_DEBUG_ASSERT. destruct cfg; [|reflexivity].
    destruct (Z.ltb_spec 0 (Z.of_nat mid)); [reflexivity|lia]. }
  rewrite Hassert. cbn [obind].
  change 0 with (Z.of_nat 0).
  rewrite !subspan_ok, !subspan_from_ok by (cbn; lia).
  cbn [obind]. rewrite !drop_0.
  rewrite !commit_to_fold_partial_returns
    by (rewrite ?length_take, ?length_drop; lia).
  cbn [obind]. cbv zeta.
  rewrite length_take, length_drop, Ha.
  rewrite (take_ge (drop mid (gpu_workspace.g_vector work)))
    by (rewrite length_drop; lia).
  rewrite take_take.
  replace (Nat.min (n - mid) mid) with (n - mid)%nat by lia.
  reflexivity.
Qed.

Lemma commit_to_fold_shorter_vectors_witness :
  @gpu_driver.commit_to_fold Zl_curve Debug
    (gpu_workspace.mk Zl_curve (proof_descriptor.mk Zl_curve [5; 6; 7] [1; 2; 3; 4] 7)
       0%N [1; 2; 3] [5; 6; 7] [1; 2; 3; 4])
  = Done (60, 108).
Proof.
  exact (@commit_to_fold_shorter_vectors Zl_curve Debug
           (gpu_workspace.mk Zl_curve
              (proof_descriptor.mk Zl_curve [5; 6; 7] [1; 2; 3; 4] 7)
              0%N [1; 2; 3] [5; 6; 7] [1; 2; 3; 4])
           2%nat 3%nat ltac:(lia) ltac:(lia) eq_refl eq_refl eq_refl).
Defined.
